(** * ExplorerPM: the financial scoring and prediction engine

    A shallow embedding of
    - [DataPreprocessor.calculate_financial_ratios]   (utils/data_preprocessing.py),
    - [FinancialDashboard.calculate_financial_health_score],
      [FinancialDashboard.calculate_risk_factors]      (components/dashboard.py),
    - [FinancialModels]                                (models/financial_models.py),
    and the properties of these functions.

    Numbers.  Python's ints and floats are modelled by exact rationals [Q];
    every division of the modelled code sits behind a test that its divisor
    is positive, so the totality of [Qdiv] is never used.  Decimal constants
    of the source ([1.1], [0.2], ...) are the rationals they denote.  The
    rounding of floats is not modelled: bounds and monotonicity carry over
    to the floats, whereas a comparison whose two sides lie within a
    rounding error of each other can go the other way in the code.

    The profile.  [user_data] is a Python dict.  The fields the modelled code
    reads as numbers and the two fields it reads as category labels are kept
    in two finite maps, so that a lookup always has the type its reader
    expects. *)

From Stdlib Require Import QArith Qminmax Lqa.
From stdpp Require Import gmap strings list sorting pretty.

Local Open Scope string_scope.
Local Open Scope Q_scope.

(** ** Numbers *)

(** Python's [a < b] on numbers. *)
Definition Qltb (a b : Q) : bool :=
  match a ?= b with Lt => true | _ => false end.

(** Python's [a >= b]. *)
Definition Qgeb (a b : Q) : bool := negb (Qltb a b).

(** Python's [a > b]. *)
Definition Qgtb (a b : Q) : bool := Qltb b a.

(** Python's [min(a, b)]: the first argument unless the second is smaller. *)
Definition py_min (a b : Q) : Q := if Qltb b a then b else a.

(** Python's [max(a, b)]: the first argument unless the second is larger. *)
Definition py_max (a b : Q) : Q := if Qgtb b a then b else a.

(** ** The user profile *)

Record UserData := {
  num : gmap string Q;        (* numeric fields *)
  cat : gmap string string    (* categorical fields *)
}.

(** [user_data.get(key, dflt)] on a numeric field. *)
Definition get (ud : UserData) (key : string) (dflt : Q) : Q :=
  default dflt (num ud !! key).

(** [user_data.get(key, dflt)] on a categorical field. *)
Definition get_cat (ud : UserData) (key : string) (dflt : string) : string :=
  default dflt (cat ud !! key).

(** [not user_data]: the dict is empty. *)
Definition is_empty (ud : UserData) : bool :=
  bool_decide (num ud = ∅) && bool_decide (cat ud = ∅).

(** [user_data[key] = v] on a numeric field. *)
Definition set_num (key : string) (v : Q) (ud : UserData) : UserData :=
  {| num := <[key := v]> (num ud); cat := cat ud |}.

(** [user_data[key] = v] on a categorical field. *)
Definition set_cat (key : string) (v : string) (ud : UserData) : UserData :=
  {| num := num ud; cat := <[key := v]> (cat ud) |}.

(** A profile built from its numeric fields only. *)
Definition of_nums (l : list (string * Q)) : UserData :=
  {| num := list_to_map l; cat := ∅ |}.

(** All numeric fields are non-negative. *)
Definition nonneg (ud : UserData) : Prop :=
  forall k v, num ud !! k = Some v -> 0 <= v.

(** ** Health Scorer: [FinancialDashboard.calculate_financial_health_score] *)

Module Dashboard.

Definition calculate_financial_health_score (user_data : UserData) : Q :=
  let score := 0 in
  (* Income stability (20 points) *)
  let score :=
    if Qgtb (get user_data "net_monthly_income" 0) 0 then score + 20 else score in
  (* Savings rate (25 points) *)
  let income := get user_data "net_monthly_income" 0 in
  let savings := get user_data "savings_total" 0 in
  let score :=
    if Qgtb income 0 then
      let monthly_savings := savings / 12 in
      let savings_rate := monthly_savings / income in
      score + py_min 25 (savings_rate * 125)
    else score in
  (* Debt management (20 points) *)
  let debt := get user_data "debts_total" 0 in
  let annual_income := if Qgtb income 0 then income * 12 else 1 in
  let debt_ratio := debt / annual_income in
  let score :=
    if Qltb debt_ratio 0.2 then score + 20
    else if Qltb debt_ratio 0.4 then score + 15
    else if Qltb debt_ratio 0.6 then score + 10
    else score + 5 in
  (* Emergency fund (15 points) *)
  let emergency_fund := get user_data "emergency_fund" 0 in
  let monthly_expenses := get user_data "fixed_costs_total" 0 in
  let score :=
    if Qgtb monthly_expenses 0 then
      let emergency_months := emergency_fund / monthly_expenses in
      if Qgeb emergency_months 6 then score + 15
      else if Qgeb emergency_months 3 then score + 10
      else if Qgeb emergency_months 1 then score + 5
      else score
    else score in
  (* Investment allocation (20 points) *)
  let investments := get user_data "investments_total" 0 in
  let total_assets := get user_data "assets_total" 0 in
  let score :=
    if Qgtb total_assets 0 then
      let investment_ratio := investments / total_assets in
      if Qgeb investment_ratio 0.3 then score + 20
      else if Qgeb investment_ratio 0.15 then score + 15
      else if Qgeb investment_ratio 0.05 then score + 10
      else score + 5
    else score in
  py_min 100 score.

(** [FinancialDashboard.get_health_status]. *)
Definition get_health_status (score : Q) : string :=
  if Qgeb score 80 then "Excellent"
  else if Qgeb score 60 then "Good"
  else if Qgeb score 40 then "Fair"
  else "Needs Improvement".

(** ** Risk Assessor: [FinancialDashboard.calculate_risk_factors] *)

Definition calculate_risk_factors (user_data : UserData) : gmap string Q :=
  let risk_factors : gmap string Q := ∅ in
  (* Debt Risk *)
  let income := get user_data "net_monthly_income" 0 in
  let debt := get user_data "debts_total" 0 in
  let risk_factors :=
    if Qgtb income 0 then
      let debt_ratio := debt / (income * 12) in
      <["Debt Risk" := py_min 10 (debt_ratio * 25)]> risk_factors
    else <["Debt Risk" := 10]> risk_factors in
  (* Emergency Fund Risk *)
  let emergency_fund := get user_data "emergency_fund" 0 in
  let monthly_expenses := get user_data "fixed_costs_total" 0 in
  let risk_factors :=
    if Qgtb monthly_expenses 0 then
      let emergency_months := emergency_fund / monthly_expenses in
      <["Emergency Fund" := py_max 0 (10 - emergency_months * 1.5)]> risk_factors
    else <["Emergency Fund" := 8]> risk_factors in
  (* Investment Risk *)
  let investments := get user_data "investments_total" 0 in
  let total_assets := get user_data "assets_total" 0 in
  let risk_factors :=
    if Qgtb total_assets 0 then
      let investment_ratio := investments / total_assets in
      if Qgtb investment_ratio 0.8 then <["Investment Risk" := 7]> risk_factors
      else if Qltb investment_ratio 0.1 then <["Investment Risk" := 6]> risk_factors
      else <["Investment Risk" := 3]> risk_factors
    else <["Investment Risk" := 5]> risk_factors in
  (* Insurance Coverage Risk *)
  let insurance := get user_data "insurance" 0 in
  let risk_factors :=
    if Qgtb income 0 then
      let insurance_ratio := insurance / income in
      <["Insurance Coverage" := py_max 0 (8 - insurance_ratio * 20)]> risk_factors
    else <["Insurance Coverage" := 8]> risk_factors in
  (* Expense Risk *)
  let expenses := get user_data "fixed_costs_total" 0 in
  let risk_factors :=
    if Qgtb income 0 then
      let expense_ratio := expenses / income in
      <["Expense Management" := py_min 10 (expense_ratio * 12)]> risk_factors
    else <["Expense Management" := 8]> risk_factors in
  risk_factors.

(** ** Action items: [FinancialDashboard.generate_action_items] *)

Definition generate_action_items (user_data : UserData) : list string :=
  let action_items : list string := [] in
  (* Emergency fund check *)
  let emergency_fund := get user_data "emergency_fund" 0 in
  let monthly_expenses := get user_data "fixed_costs_total" 0 in
  let action_items :=
    if Qgtb monthly_expenses 0 then
      let emergency_months := emergency_fund / monthly_expenses in
      if Qltb emergency_months 3
      then (action_items ++ ["Build emergency fund to cover 3-6 months of expenses"])%list
      else action_items
    else action_items in
  (* Debt management *)
  let debt := get user_data "debts_total" 0 in
  let income := get user_data "net_monthly_income" 0 in
  let action_items :=
    if Qgtb debt 0 && Qgtb income 0 then
      if Qgtb debt (income * 6)
      then (action_items ++ ["Create a debt repayment plan to reduce high debt levels"])%list
      else action_items
    else action_items in
  (* Investment diversification *)
  let investments := get user_data "investments_total" 0 in
  let savings := get user_data "savings_total" 0 in
  let action_items :=
    if Qgtb savings (investments * 2)
    then (action_items ++ ["Consider moving some savings to investments for better returns"])%list
    else action_items in
  (* Insurance review *)
  let insurance := get user_data "insurance" 0 in
  let action_items :=
    if Qgtb income 0 && Qltb insurance (income * 0.1)
    then (action_items ++ ["Review and potentially increase your insurance coverage"])%list
    else action_items in
  take 4 action_items.

(** ** The risk tab: the level and the suggestions of
    [FinancialDashboard.render_risk_tab] *)

(** [risk_level = "High" if score > 7 else "Medium" if score > 4 else "Low"]. *)
Definition risk_level (score : Q) : string :=
  if Qgtb score 7 then "High" else if Qgtb score 4 then "Medium" else "Low".

(** [risk_factors.get(key, 0)]. *)
Definition factor (risk_factors : gmap string Q) (key : string) : Q :=
  default 0 (risk_factors !! key).

(** The list [suggestions] that [render_risk_tab] shows. *)
Definition risk_suggestions (risk_factors : gmap string Q) : list string :=
  let suggestions : list string := [] in
  let suggestions :=
    if Qgtb (factor risk_factors "Debt Risk") 6
    then (suggestions ++ ["Consider debt consolidation or faster repayment strategies"])%list
    else suggestions in
  let suggestions :=
    if Qgtb (factor risk_factors "Emergency Fund") 6
    then (suggestions ++ ["Build emergency fund to cover 6 months of expenses"])%list
    else suggestions in
  let suggestions :=
    if Qgtb (factor risk_factors "Investment Risk") 7
    then (suggestions ++ ["Diversify your investment portfolio"])%list
    else suggestions in
  let suggestions :=
    if Qgtb (factor risk_factors "Insurance Coverage") 6
    then (suggestions ++ ["Review and increase your insurance coverage"])%list
    else suggestions in
  suggestions.

(** ** The investment tab: the age-based allocation of
    [FinancialDashboard.render_investment_tab]: suggested equity, suggested
    debt and the risk profile. *)
Definition suggested_allocation (user_data : UserData) : Q * Q * string :=
  let age := get user_data "age" 30 in
  let equity_percentage := py_min (100 - age) 80 in
  let debt_percentage := 100 - equity_percentage in
  let risk_level :=
    if Qgtb equity_percentage 60 then "High"
    else if Qgtb equity_percentage 40 then "Moderate" else "Conservative" in
  (equity_percentage, debt_percentage, risk_level).

End Dashboard.

(** ** Ratio Calculator: [DataPreprocessor.calculate_financial_ratios] *)

Module Preprocessor.

Definition calculate_financial_ratios (user_data : UserData) : gmap string Q :=
  let ratios : gmap string Q := ∅ in
  (* Income-based ratios *)
  let net_income := get user_data "net_monthly_income" 0 in
  let gross_income := get user_data "gross_monthly_income" 0 in
  let ratios :=
    if Qgtb gross_income 0 then <["tax_efficiency" := net_income / gross_income]> ratios
    else ratios in
  (* Expense ratios *)
  let fixed_costs := get user_data "fixed_costs_total" 0 in
  let ratios :=
    if Qgtb net_income 0 then <["expense_ratio" := fixed_costs / net_income]> ratios
    else ratios in
  (* Savings ratio *)
  let savings := get user_data "savings_total" 0 in
  let ratios :=
    if Qgtb net_income 0 then <["savings_rate" := (savings / 12) / net_income]> ratios
    else ratios in
  (* Debt-to-income ratio *)
  let debts := get user_data "debts_total" 0 in
  let ratios :=
    if Qgtb net_income 0 then <["debt_to_income" := debts / (net_income * 12)]> ratios
    else ratios in
  (* Investment ratio *)
  let investments := get user_data "investments_total" 0 in
  let assets := get user_data "assets_total" 0 in
  let ratios :=
    if Qgtb assets 0 then <["investment_allocation" := investments / assets]> ratios
    else ratios in
  (* Emergency fund ratio *)
  let emergency_fund := get user_data "emergency_fund" 0 in
  let ratios :=
    if Qgtb fixed_costs 0 then <["emergency_fund_months" := emergency_fund / fixed_costs]> ratios
    else ratios in
  ratios.

End Preprocessor.

(** ** The local store: [MockFirestore] and the [FirebaseService] methods
    over it *)

Module Firebase.

(** The values a document field holds. *)
Inductive Value :=
  | VNum (q : Q)
  | VStr (s : string)
  | VTime (t : Z)
  | VMessages (l : list (gmap string string)).

(** A document is a dict of fields; [MockFirestore.data] maps a collection
    name to the dict of its documents. *)
Definition Doc : Type := gmap string Value.
Definition Store : Type := gmap string (gmap string Doc).

(** [MockFirestore.collection]: making the handle creates the collection
    when the store does not have it. *)
Definition collection (db : Store) (collection_name : string) : Store :=
  match db !! collection_name with
  | Some _ => db
  | None => <[collection_name := ∅]> db
  end.

(** The dict of the documents of a collection. *)
Definition collection_data (db : Store) (collection_name : string) : gmap string Doc :=
  default ∅ (db !! collection_name).

(** [db.collection(name).document(doc_id).set(data, merge)]. *)
Definition document_set (db : Store) (collection_name doc_id : string)
    (data : Doc) (merge : bool) : Store :=
  let db := collection db collection_name in
  let docs := collection_data db collection_name in
  let docs :=
    match docs !! doc_id with
    | Some old => if merge then <[doc_id := data ∪ old]> docs else <[doc_id := data]> docs
    | None => <[doc_id := data]> docs
    end in
  <[collection_name := docs]> db.

(** [db.collection(name).document(doc_id).get()]: the data of the snapshot,
    [None] when there is no such document. *)
Definition document_get (db : Store) (collection_name doc_id : string)
    : option Doc * Store :=
  let db := collection db collection_name in
  (collection_data db collection_name !! doc_id, db).

(** [MockDocumentSnapshot.exists] and [MockDocumentSnapshot.to_dict]. *)
Definition snapshot_exists (data : option Doc) : bool :=
  match data with Some _ => true | None => false end.

Definition to_dict (data : option Doc) : Doc := default ∅ data.

(** [FirebaseService.save_user_data]; [now] is [datetime.now()].  The
    source writes the two fields into the dict of its caller and, for a
    new document, stores that very dict; the model stores the value the
    dict has at the time of the call, which is what a later read returns
    for as long as the caller leaves the dict alone. *)
Definition save_user_data (now : Z) (db : Store) (user_id : string) (user_data : Doc)
    : bool * Store :=
  let user_data := <["timestamp" := VTime now]> user_data in
  let user_data := <["user_id" := VStr user_id]> user_data in
  (true, document_set db "users" user_id user_data true).

(** [FirebaseService.get_user_data]. *)
Definition get_user_data (db : Store) (user_id : string) : option Doc * Store :=
  let '(doc, db) := document_get db "users" user_id in
  if snapshot_exists doc then (Some (to_dict doc), db) else (None, db).

(** [FirebaseService.save_chat_history]; [now_iso] is
    [datetime.now().isoformat()]. *)
Definition save_chat_history (now_iso : string) (db : Store) (user_id : string)
    (chat_history : list (gmap string string)) : bool * Store :=
  let chat_data : Doc :=
    {[ "user_id" := VStr user_id;
       "chat_history" := VMessages chat_history;
       "timestamp" := VStr now_iso ]} in
  (true, document_set db "chats" user_id chat_data true).

(** [FirebaseService.get_chat_history]. *)
Definition get_chat_history (db : Store) (user_id : string) : Value * Store :=
  let '(doc, db) := document_get db "chat_history" user_id in
  if snapshot_exists doc
  then (default (VMessages []) (to_dict doc !! "chat_history"), db)
  else (VMessages [], db).

End Firebase.

(** ** Trained Predictor and Projection Engine: [FinancialModels] *)

Module Models.

(** A [RandomForestRegressor], seen through [predict]: one feature row in,
    the array of predictions out; [None] when the call raises, as it does
    on a row of another width than the fitted one or on an estimator that
    was never fitted. *)
Record Regressor := { predict : list Q -> option (list Q) }.

(** A [RandomForestClassifier], seen through [predict_proba]: one feature
    row in, the rows of class probabilities out; [None] when the call
    raises. *)
Record Classifier := { predict_proba : list Q -> option (list (list Q)) }.

(** [RandomForestRegressor(...)] and [RandomForestClassifier(...)] before
    any [fit]: every prediction raises [NotFittedError]. *)
Definition unfitted_regressor : Regressor := {| predict := fun _ => None |}.

Definition unfitted_classifier : Classifier := {| predict_proba := fun _ => None |}.

(** How one model block of [train_models] ends: the estimator is assigned
    to its attribute before it is fitted, so a raising [fit] leaves the
    unfitted estimator there, and a failure before the assignment leaves
    the attribute as it was. *)
Inductive Fit (A : Type) : Type :=
  | TargetRaised        (* the target column or train_test_split raised *)
  | FitRaised           (* the estimator was assigned and its fit raised *)
  | Fitted (model : A). (* the estimator was assigned and fitted *)

Arguments TargetRaised {A}.
Arguments FitRaised {A}.
Arguments Fitted {A} model.

(** The attributes of a [FinancialModels] object.  A fitted [LabelEncoder]
    is its [classes_]; the scaler is fitted by training and never read. *)
Record FinancialModels := {
  expense_model : option Regressor;
  investment_model : option Regressor;
  risk_model : option Classifier;
  insurance_model : option Regressor;
  label_encoders : gmap string (list string);
  is_trained : bool
}.

(** [FinancialModels.__init__]. *)
Definition init : FinancialModels :=
  {| expense_model := None; investment_model := None; risk_model := None;
     insurance_model := None; label_encoders := ∅; is_trained := false |}.

Definition set_expense_model (m : option Regressor) (self : FinancialModels) :=
  {| expense_model := m; investment_model := investment_model self;
     risk_model := risk_model self; insurance_model := insurance_model self;
     label_encoders := label_encoders self; is_trained := is_trained self |}.

Definition set_investment_model (m : option Regressor) (self : FinancialModels) :=
  {| expense_model := expense_model self; investment_model := m;
     risk_model := risk_model self; insurance_model := insurance_model self;
     label_encoders := label_encoders self; is_trained := is_trained self |}.

Definition set_risk_model (m : option Classifier) (self : FinancialModels) :=
  {| expense_model := expense_model self; investment_model := investment_model self;
     risk_model := m; insurance_model := insurance_model self;
     label_encoders := label_encoders self; is_trained := is_trained self |}.

Definition set_insurance_model (m : option Regressor) (self : FinancialModels) :=
  {| expense_model := expense_model self; investment_model := investment_model self;
     risk_model := risk_model self; insurance_model := m;
     label_encoders := label_encoders self; is_trained := is_trained self |}.

Definition set_label_encoders (e : gmap string (list string)) (self : FinancialModels) :=
  {| expense_model := expense_model self; investment_model := investment_model self;
     risk_model := risk_model self; insurance_model := insurance_model self;
     label_encoders := e; is_trained := is_trained self |}.

Definition set_is_trained (b : bool) (self : FinancialModels) :=
  {| expense_model := expense_model self; investment_model := investment_model self;
     risk_model := risk_model self; insurance_model := insurance_model self;
     label_encoders := label_encoders self; is_trained := b |}.

(** What training needs from outside the repository: the reference CSV
    file, pandas and scikit-learn. *)
Record World := {
  Frame : Type;                                     (* a pandas DataFrame *)
  read_csv : option Frame;                          (* pd.read_csv of the reference file; None: it raised *)
  has_column : Frame -> string -> bool;             (* col in data.columns *)
  column_str : Frame -> string -> list string;      (* data[col].astype(str) *)
  np_unique : list string -> list string;           (* the sorted distinct labels LabelEncoder.fit keeps *)
  set_codes : Frame -> string -> list nat -> Frame; (* data[col] = codes *)
  select_fillna : Frame -> list string -> Frame;    (* data[cols].fillna(0) *)
  (* target column of the first len(X) rows with fillna(0), train_test_split,
     RandomForestRegressor(...).fit *)
  fit_regressor : Frame -> Frame -> string -> Fit Regressor;
  (* (data['financial_stress'] == 'yes').astype(int), train_test_split,
     RandomForestClassifier(...).fit *)
  fit_classifier : Frame -> Frame -> Fit Classifier;
  (* self.scaler.fit on the training part of X; false: it raised *)
  fit_scaler : Frame -> bool
}.

(** [LabelEncoder.transform] of one label: its position in [classes_];
    [None] stands for the [ValueError] on an unseen label. *)
Definition le_transform (classes : list string) (label : string) : option nat :=
  fst <$> list_find (fun c => c = label) classes.

(** [FinancialModels.load_training_data]. *)
Definition load_training_data (w : World) : option (Frame w) := read_csv w.

Definition categorical_cols : list string :=
  ["income_type"; "class"; "financial_stress"; "owns_home"; "user_goals"].

Definition feature_cols : list string :=
  ["household_size"; "number_of_kids"; "income_type"; "class";
   "gross_monthly_income"; "net_monthly_income"; "assets_total";
   "investments_total"; "savings_total"; "debts_total"].

(** The loop of [preprocess_data] over the categorical columns.  It threads
    [self.label_encoders] and the working copy of the data; the second
    component is [None] when a [transform] raised, and the encoders fitted
    until then stay in place. *)
Fixpoint encode_columns (w : World) (cols : list string)
    (encoders : gmap string (list string)) (data_copy : Frame w)
    : gmap string (list string) * option (Frame w) :=
  match cols with
  | [] => (encoders, Some data_copy)
  | col :: cols =>
    if has_column w data_copy col then
      let labels := column_str w data_copy col in
      let '(encoders, classes) :=
        match encoders !! col with
        | None => let classes := np_unique w labels in
                  (<[col := classes]> encoders, classes)
        | Some classes => (encoders, classes)
        end in
      match mapM (le_transform classes) labels with
      | Some codes => encode_columns w cols encoders (set_codes w data_copy col codes)
      | None => (encoders, None)
      end
    else encode_columns w cols encoders data_copy
  end.

Definition targets : gmap string string :=
  {[ "expense_prediction" := "fixed_costs_total";
     "investment_score" := "investments_total";
     "risk_score" := "financial_stress";
     "insurance_gap" := "insurance" ]}.

(** [FinancialModels.preprocess_data]: the feature frame and the target
    table, or [None] for [(None, None)]; the object is returned with the
    encoders the call fitted. *)
Definition preprocess_data (w : World) (self : FinancialModels) (data : option (Frame w))
    : option (Frame w * gmap string string) * FinancialModels :=
  match data with
  | None => (None, self)
  | Some data =>
    let '(encoders, data_copy) := encode_columns w categorical_cols (label_encoders self) data in
    let self := set_label_encoders encoders self in
    match data_copy with
    | None => (None, self)
    | Some data_copy =>
      let available_cols := filter (fun col => has_column w data_copy col = true) feature_cols in
      match available_cols with
      | [] => (None, self)
      | _ => (Some (select_fillna w data_copy available_cols, targets), self)
      end
    end
  end.

(** [data_aligned[targets[key]]] and the fit of a regressor on it; a key
    that [targets] lacks raises like a missing column. *)
Definition fit_target (w : World) (X data : Frame w) (targets : gmap string string)
    (key : string) : Fit Regressor :=
  match targets !! key with
  | Some col => fit_regressor w X data col
  | None => TargetRaised
  end.

(** [FinancialModels.train_models]: the returned flag and the object after
    the call.  Whatever raises inside the [try] ends the call with [False]:
    the models assigned until then stay, the last of them unfitted when it
    was its [fit] that raised, and [is_trained] is unchanged. *)
Definition train_models (w : World) (self : FinancialModels) : bool * FinancialModels :=
  match load_training_data w with
  | None => (false, self)
  | Some data =>
    let '(Xt, self) := preprocess_data w self (Some data) in
    match Xt with
    | None => (false, self)
    | Some (X, targets) =>
      (* Expense Prediction Model *)
      match fit_target w X data targets "expense_prediction" with
      | TargetRaised => (false, self)
      | FitRaised => (false, set_expense_model (Some unfitted_regressor) self)
      | Fitted m =>
        let self := set_expense_model (Some m) self in
        (* Investment Recommendation Model *)
        match fit_target w X data targets "investment_score" with
        | TargetRaised => (false, self)
        | FitRaised => (false, set_investment_model (Some unfitted_regressor) self)
        | Fitted m =>
          let self := set_investment_model (Some m) self in
          (* Risk Assessment Model *)
          match fit_classifier w X data with
          | TargetRaised => (false, self)
          | FitRaised => (false, set_risk_model (Some unfitted_classifier) self)
          | Fitted m =>
            let self := set_risk_model (Some m) self in
            (* Insurance Gap Model *)
            match fit_target w X data targets "insurance_gap" with
            | TargetRaised => (false, self)
            | FitRaised => (false, set_insurance_model (Some unfitted_regressor) self)
            | Fitted m =>
              let self := set_insurance_model (Some m) self in
              (* Fit scaler *)
              if fit_scaler w X then (true, set_is_trained true self)
              else (false, self)
            end
          end
        end
      end
    end
  end.

(** The position of a label as a feature value. *)
Definition encode (classes : list string) (label : string) : option Q :=
  (fun i : nat => inject_Z (Z.of_nat i)) <$> le_transform classes label.

(** [FinancialModels.prepare_user_features]: the feature row, or [None].
    The [except] branch, which also returns [None], is where a raising
    [transform] ends. *)
Definition prepare_user_features (self : FinancialModels) (user_data : UserData)
    : option (list Q) :=
  if is_empty user_data then None
  else
    income_type_encoded ←
      match label_encoders self !! "income_type" with
      | Some classes =>
        let income_type := get_cat user_data "income_type" "single_income" in
        if bool_decide (income_type ∈ classes) then encode classes income_type
        else Some 0
      | None => Some 0
      end;
    class_encoded ←
      match label_encoders self !! "class" with
      | Some classes =>
        let social_class := get_cat user_data "class" "middle" in
        if bool_decide (social_class ∈ classes) then encode classes social_class
        else Some 0
      | None => Some 0
      end;
    Some [ get user_data "household_size" 1;
           get user_data "number_of_kids" 0;
           income_type_encoded;
           class_encoded;
           get user_data "gross_monthly_income" 0;
           get user_data "net_monthly_income" 0;
           get user_data "assets_total" 0;
           get user_data "investments_total" 0;
           get user_data "savings_total" 0;
           get user_data "debts_total" 0 ].

(** [if not self.is_trained: self.train_models()], the result dropped. *)
Definition train_if_needed (w : World) (self : FinancialModels) : FinancialModels :=
  if is_trained self then self else snd (train_models w self).

(** [float(prediction[0]) if len(prediction) > 0 else 0]. *)
Definition first_or_zero (prediction : list Q) : Q :=
  match prediction with x :: _ => x | [] => 0 end.

(** The predictors and [generate_predictions] return the result together
    with the object after the call; the result is [None] when the call
    raised, which is what an exception of [predict] does to them: it is
    caught nowhere. *)

(** [FinancialModels.predict_expenses]. *)
Definition predict_expenses (w : World) (self : FinancialModels) (user_data : UserData)
    : option Q * FinancialModels :=
  let self := train_if_needed w self in
  match prepare_user_features self user_data, expense_model self with
  | Some features, Some model =>
    match predict model features with
    | Some prediction => (Some (first_or_zero prediction), self)
    | None => (None, self)
    end
  | _, _ => (Some 0, self)
  end.

(** [FinancialModels.predict_investment_potential]. *)
Definition predict_investment_potential (w : World) (self : FinancialModels)
    (user_data : UserData) : option Q * FinancialModels :=
  let self := train_if_needed w self in
  match prepare_user_features self user_data, investment_model self with
  | Some features, Some model =>
    match predict model features with
    | Some prediction => (Some (first_or_zero prediction), self)
    | None => (None, self)
    end
  | _, _ => (Some 0, self)
  end.

(** [FinancialModels.assess_risk]: its [try] catches what [predict_proba]
    raises, so the call always returns. *)
Definition assess_risk (w : World) (self : FinancialModels) (user_data : UserData)
    : Q * FinancialModels :=
  let self := train_if_needed w self in
  match prepare_user_features self user_data, risk_model self with
  | Some features, Some model =>
    match predict_proba model features with
    | Some risk_proba =>
      (* float(risk_proba[0][1]) if len(risk_proba) > 0 and len(risk_proba[0]) > 1 else 0.5 *)
      match risk_proba with
      | (_ :: p :: _) :: _ => (p, self)
      | _ => (0.5, self)
      end
    | None => (0.5, self)
    end
  | _, _ => (0.5, self)
  end.

(** [FinancialModels.predict_insurance_need]. *)
Definition predict_insurance_need (w : World) (self : FinancialModels)
    (user_data : UserData) : option Q * FinancialModels :=
  let self := train_if_needed w self in
  match prepare_user_features self user_data, insurance_model self with
  | Some features, Some model =>
    match predict model features with
    | Some prediction => (Some (first_or_zero prediction), self)
    | None => (None, self)
    end
  | _, _ => (Some 0, self)
  end.

(** One horizon record of the prediction set. *)
Record Horizon := {
  savings_growth : Q;
  investment_returns : Q;
  risk_score : Q;
  health_status : string
}.

(** [FinancialModels.generate_predictions]: the returned dict, or [None]
    when one of the predictors raised, and the object after the call. *)
Definition generate_predictions (w : World) (self : FinancialModels) (user_data : UserData)
    : option (gmap string Horizon) * FinancialModels :=
  let '(success, self) :=
    if is_trained self then (true, self) else train_models w self in
  if negb success then (Some ∅, self)
  else
    (* Get base predictions *)
    let '(expense_pred, self) := predict_expenses w self user_data in
    match expense_pred with
    | None => (None, self)
    | Some expense_pred =>
    let '(investment_pred, self) := predict_investment_potential w self user_data in
    match investment_pred with
    | None => (None, self)
    | Some investment_pred =>
    let '(risk_score, self) := assess_risk w self user_data in
    let '(insurance_pred, self) := predict_insurance_need w self user_data in
    match insurance_pred with
    | None => (None, self)
    | Some insurance_pred =>
    (* Calculate growth projections *)
    let current_income := get user_data "net_monthly_income" 0 in
    let current_savings := get user_data "savings_total" 0 in
    let predictions : gmap string Horizon :=
      {[ "1_year" :=
           {| savings_growth := current_savings * 1.1 + (current_income * 0.2 * 12);
              investment_returns := investment_pred * 0.12;
              risk_score := risk_score * 10;
              health_status :=
                if Qltb risk_score 0.3 then "Good"
                else if Qltb risk_score 0.7 then "Moderate" else "High Risk" |};
         "3_year" :=
           {| savings_growth := current_savings * 1.35 + (current_income * 0.2 * 36);
              investment_returns := investment_pred * 0.4;
              risk_score := risk_score * 10;
              health_status :=
                if Qltb risk_score 0.3 then "Good"
                else if Qltb risk_score 0.7 then "Moderate" else "High Risk" |};
         "10_year" :=
           {| savings_growth := current_savings * 2.5 + (current_income * 0.25 * 120);
              investment_returns := investment_pred * 1.8;
              risk_score := risk_score * 10;
              health_status :=
                if Qltb risk_score 0.2 then "Excellent"
                else if Qltb risk_score 0.5 then "Good" else "Moderate" |} ]} in
    (Some predictions, self)
    end end end.

End Models.

(** ** Concrete profiles and worlds *)

(** The example profile of the specification. *)
Definition spec_profile : UserData :=
  of_nums [("net_monthly_income", 65000); ("savings_total", 150000);
           ("debts_total", 800000); ("investments_total", 400000);
           ("assets_total", 2500000); ("emergency_fund", 200000);
           ("fixed_costs_total", 58500)].

(** A profile with a gross income and no net income. *)
Definition gross_only_profile : UserData :=
  of_nums [("gross_monthly_income", 5000); ("net_monthly_income", 0)].

(** A profile that gives no household size. *)
Definition income_only_profile : UserData :=
  of_nums [("net_monthly_income", 5000)].

(** A world where the reference CSV file cannot be read. *)
Definition no_dataset : Models.World :=
  {| Models.Frame := unit;
     Models.read_csv := None;
     Models.has_column := fun _ _ => false;
     Models.column_str := fun _ _ => [];
     Models.np_unique := fun l => l;
     Models.set_codes := fun f _ _ => f;
     Models.select_fillna := fun f _ => f;
     Models.fit_regressor := fun _ _ _ => Models.TargetRaised;
     Models.fit_classifier := fun _ _ => Models.TargetRaised;
     Models.fit_scaler := fun _ => false |}.

(** A small world over a table of string cells.  A model fitted there
    takes rows of as many features as the table gave it columns and raises
    on any other row, as a scikit-learn forest does.  On such a row a
    regressor predicts a tenth of the sum of the features; the classifier
    knows as many classes as the [financial_stress] column shows, so a
    column without a ["yes"] gives one probability per row. *)
Definition table_world (data : gmap string (list string)) : Models.World :=
  {| Models.Frame := gmap string (list string);
     Models.read_csv := Some data;
     Models.has_column := fun f col => bool_decide (is_Some (f !! col));
     Models.column_str := fun f col => default [] (f !! col);
     Models.np_unique := fun l =>
       merge_sort (fun a b => Is_true (String.leb a b)) (remove_dups l);
     Models.set_codes := fun f col codes => <[col := pretty <$> codes]> f;
     Models.select_fillna := fun f cols =>
       filter (fun kv => kv.1 ∈ cols) f;
     Models.fit_regressor := fun X f target =>
       if bool_decide (is_Some (f !! target))
       then Models.Fitted
              {| Models.predict := fun row =>
                   if bool_decide (length row = size X)
                   then Some [foldr Qplus 0 row / 10] else None |}
       else Models.TargetRaised;
     Models.fit_classifier := fun X f =>
       match f !! "financial_stress" with
       | Some labels =>
         Models.Fitted
           {| Models.predict_proba := fun row =>
                if bool_decide (length row = size X)
                then Some (if bool_decide ("yes" ∈ labels)
                           then [[0.75; 0.25]] else [[1]])
                else None |}
       | None => Models.TargetRaised
       end;
     Models.fit_scaler := fun _ => true |}.

(** A reference table with the ten feature columns and the target columns,
    in which nobody reports financial stress. *)
Definition calm_table : gmap string (list string) :=
  {[ "household_size" := ["2"; "4"; "1"];
     "number_of_kids" := ["0"; "2"; "0"];
     "income_type" := ["single_income"; "dual_income"; "single_income"];
     "class" := ["middle"; "rich"; "poor"];
     "gross_monthly_income" := ["3800"; "12000"; "1700"];
     "net_monthly_income" := ["3000"; "9000"; "1500"];
     "assets_total" := ["60000"; "900000"; "2000"];
     "investments_total" := ["5000"; "400000"; "0"];
     "savings_total" := ["10000"; "250000"; "0"];
     "debts_total" := ["15000"; "200000"; "500"];
     "fixed_costs_total" := ["2000"; "4000"; "1400"];
     "insurance" := ["100"; "600"; "0"];
     "financial_stress" := ["no"; "no"; "no"] ]}.

(** The same table with one stressed household. *)
Definition mixed_table : gmap string (list string) :=
  <["financial_stress" := ["no"; "no"; "yes"]]> calm_table.

(** The calm table without its [debts_total] column: the models are fitted
    on nine features, and feature preparation still yields ten. *)
Definition narrow_table : gmap string (list string) :=
  delete "debts_total" calm_table.

(** The calm world with a forest that cannot be fitted: the fit of every
    regressor raises. *)
Definition brittle_world : Models.World :=
  let w := table_world calm_table in
  {| Models.Frame := Models.Frame w;
     Models.read_csv := Models.read_csv w;
     Models.has_column := Models.has_column w;
     Models.column_str := Models.column_str w;
     Models.np_unique := Models.np_unique w;
     Models.set_codes := Models.set_codes w;
     Models.select_fillna := Models.select_fillna w;
     Models.fit_regressor := fun _ _ _ => Models.FitRaised;
     Models.fit_classifier := Models.fit_classifier w;
     Models.fit_scaler := Models.fit_scaler w |}.

(** The empty profile. *)
Definition empty_profile : UserData := of_nums [].

(** A household with the savings and the net income of the example
    profile, and with other expenses, emergency fund, assets and debts. *)
Definition frugal_profile : UserData :=
  set_num "fixed_costs_total" 20000
    (set_num "emergency_fund" 0
       (set_num "assets_total" 2600000
          (set_num "debts_total" 700000 spec_profile))).

(** A regressor that always predicts 42. *)
Definition constant_regressor : Models.Regressor :=
  {| Models.predict := fun _ => Some [42] |}.

(** A profile whose income type no reference table knows. *)
Definition freelance_profile : UserData :=
  set_cat "income_type" "freelance" income_only_profile.

(** The predictor after a training on the mixed table. *)
Definition trained_predictor : Models.FinancialModels :=
  snd (Models.train_models (table_world mixed_table) Models.init).

(** The predictor after a training on the calm table. *)
Definition calm_predictor : Models.FinancialModels :=
  snd (Models.train_models (table_world calm_table) Models.init).

(** ** Vocabulary of the statements *)

(** The category names of a risk factor set. *)
Definition risk_keys : gset string :=
  {[ "Debt Risk"; "Emergency Fund"; "Investment Risk"; "Insurance Coverage";
     "Expense Management" ]}.

(** The horizon keys of a prediction set. *)
Definition horizon_keys : gset string := {[ "1_year"; "3_year"; "10_year" ]}.

(** The training guard of [generate_predictions] lets a call on [self]
    through, and the call goes on with the object [s]: [self] is trained
    already, or its lazy training succeeds and leaves [s]. *)
Inductive ready (w : Models.World) (self s : Models.FinancialModels) : Prop :=
  | ready_already : Models.is_trained self = true -> s = self -> ready w self s
  | ready_lazily : Models.is_trained self = false ->
      Models.train_models w self = (true, s) -> ready w self s.

(** Two horizon records with the same status and numerically equal fields. *)
Definition horizon_equiv (h1 h2 : Models.Horizon) : Prop :=
  Models.savings_growth h1 == Models.savings_growth h2
  /\ Models.investment_returns h1 == Models.investment_returns h2
  /\ Models.risk_score h1 == Models.risk_score h2
  /\ Models.health_status h1 = Models.health_status h2.

(** Two prediction sets with the same keys and equivalent records. *)
Definition predictions_equiv (p1 p2 : gmap string Models.Horizon) : Prop :=
  forall k, option_Forall2 horizon_equiv (p1 !! k) (p2 !! k).

(** * Properties *)

(** ** Comparisons and clamps *)

Lemma Qltb_lt (a b : Q) : Qltb a b = true <-> a < b.
Proof.
  unfold Qltb. rewrite Qlt_alt. destruct (a ?= b); split; congruence.
Qed.

Lemma Qltb_ge (a b : Q) : Qltb a b = false <-> b <= a.
Proof.
  pose proof (Qltb_lt a b) as H. pose proof (Qnot_lt_le a b) as H1.
  pose proof (Qle_not_lt b a) as H2.
  destruct (Qltb a b); split; intros; try congruence; intuition congruence.
Qed.

(** Case analysis on every comparison of the goal, the outcome recorded as
    an order fact. *)
Ltac case_cmp :=
  unfold Qgeb, Qgtb in *;
  repeat match goal with
  | |- context [Qltb ?a ?b] =>
    let E := fresh "E" in
    destruct (Qltb a b) eqn:E;
    [apply Qltb_lt in E | apply Qltb_ge in E]; cbn [negb]
  end.

Lemma py_min_le_l (a b : Q) : py_min a b <= a.
Proof. unfold py_min. case_cmp; lra. Qed.

Lemma py_min_glb (a b c : Q) : c <= a -> c <= b -> c <= py_min a b.
Proof. unfold py_min. case_cmp; lra. Qed.

Lemma py_min_mono_r (a b b' : Q) : b <= b' -> py_min a b <= py_min a b'.
Proof. unfold py_min. case_cmp; lra. Qed.

Lemma py_max_ge_l (a b : Q) : a <= py_max a b.
Proof. unfold py_max. case_cmp; lra. Qed.

Lemma py_max_lub (a b c : Q) : a <= c -> b <= c -> py_max a b <= c.
Proof. unfold py_max. case_cmp; lra. Qed.

(** A quotient of a non-negative number by a positive one. *)
Lemma Qdiv_nonneg (a b : Q) : 0 <= a -> 0 < b -> 0 <= a / b.
Proof. intros Ha Hb. apply Qle_shift_div_l; lra. Qed.

Lemma Qdiv_mono_l (a a' b : Q) : a <= a' -> 0 < b -> a / b <= a' / b.
Proof.
  intros Ha Hb. apply Qle_shift_div_l; [exact Hb|].
  unfold Qdiv. rewrite <- Qmult_assoc, (Qmult_comm (/ b)), Qmult_inv_r; lra.
Qed.

(** ** Reading the profile *)

Lemma nonneg_get (ud : UserData) (k : string) (d : Q) :
  nonneg ud -> 0 <= d -> 0 <= get ud k d.
Proof.
  unfold get. intros H Hd. destruct (num ud !! k) eqn:E; cbn; [eauto | exact Hd].
Qed.

Lemma get_set_num_eq (ud : UserData) (k : string) (v d : Q) :
  get (set_num k v ud) k d = v.
Proof. unfold get, set_num; cbn. by rewrite lookup_insert_eq. Qed.

Lemma get_set_num_ne (ud : UserData) (k k' : string) (v d : Q) :
  k <> k' -> get (set_num k v ud) k' d = get ud k' d.
Proof. intros H. unfold get, set_num; cbn. by rewrite lookup_insert_ne. Qed.

(** ** Health Scorer *)

Section HealthScore.
Import Dashboard.

(** C2: on a profile whose numeric fields are all non-negative the health
    score lies in [0,100], whatever the size of the fields. *)
Theorem health_score_bounds (ud : UserData) :
  nonneg ud ->
  0 <= calculate_financial_health_score ud <= 100.
Proof.
  intros Hnn. split; [|apply py_min_le_l].
  unfold calculate_financial_health_score.
  pose proof (nonneg_get ud "savings_total" 0 Hnn ltac:(lra)) as Hs.
  set (income := get ud "net_monthly_income" 0) in *.
  set (savings := get ud "savings_total" 0) in *.
  assert (Hrate : 0 < income -> 0 <= savings / 12 / income * 125).
  { intros Hi. apply Qmult_le_0_compat; [|lra].
    apply Qdiv_nonneg; [|exact Hi]. apply Qdiv_nonneg; lra. }
  generalize dependent (savings / 12 / income * 125). intros rate Hrate.
  apply py_min_glb; [lra|].
  unfold py_min. case_cmp; try specialize (Hrate ltac:(assumption)); lra.
Qed.

(** Non-negativity of a profile given by its list of fields. *)
Ltac nonneg_fields :=
  let k := fresh "k" in let v := fresh "v" in let H := fresh "H" in
  intros k v H; cbn in H;
  repeat (apply lookup_insert_Some in H as [[_ <-]|[_ H]]; [vm_compute; discriminate|]);
  by rewrite lookup_empty in H.

Lemma spec_profile_nonneg : nonneg spec_profile.
Proof. unfold spec_profile, of_nums. nonneg_fields. Qed.

Lemma gross_only_profile_nonneg : nonneg gross_only_profile.
Proof. unfold gross_only_profile, of_nums. nonneg_fields. Qed.

Lemma health_score_bounds_witness :
  nonneg spec_profile /\ 0 <= calculate_financial_health_score spec_profile <= 100.
Proof.
  split; [exact spec_profile_nonneg|].
  apply (health_score_bounds spec_profile). exact spec_profile_nonneg.
Defined.

(** C6: on the example profile of the specification the score is
    20 + min(25, ((150000/12)/65000)*125) + 5 + 10 + 15 = 1925/26, about
    74.04, the savings component being about 24.04. *)
Theorem health_score_spec_example :
  calculate_financial_health_score spec_profile
    == 20 + py_min 25 (((150000 / 12) / 65000) * 125) + 5 + 10 + 15
  /\ calculate_financial_health_score spec_profile == 1925 # 26
  /\ 74.03 < calculate_financial_health_score spec_profile < 74.04
  /\ 24.03 < py_min 25 (((150000 / 12) / 65000) * 125) < 24.04.
Proof. vm_compute. intuition congruence. Qed.

(** C7: raising [savings_total] and keeping every other field never
    lowers the score.  (No sign condition on the fields is needed.) *)
Theorem health_score_savings_monotone (ud : UserData) (s1 s2 : Q) :
  s1 <= s2 ->
  calculate_financial_health_score (set_num "savings_total" s1 ud)
    <= calculate_financial_health_score (set_num "savings_total" s2 ud).
Proof.
  intros Hs. unfold calculate_financial_health_score.
  rewrite !get_set_num_eq, !get_set_num_ne by done.
  set (income := get ud "net_monthly_income" 0).
  assert (Hrate : 0 < income -> s1 / 12 / income * 125 <= s2 / 12 / income * 125).
  { intros Hi. apply Qmult_le_compat_r; [|lra].
    apply Qdiv_mono_l; [|exact Hi]. apply Qdiv_mono_l; lra. }
  generalize dependent (s1 / 12 / income * 125). intros r1.
  generalize (s2 / 12 / income * 125). intros r2 Hrate.
  apply py_min_mono_r.
  unfold py_min. case_cmp; try specialize (Hrate ltac:(assumption)); lra.
Qed.

Lemma health_score_savings_monotone_witness :
  1000 <= 150000 /\
  calculate_financial_health_score (set_num "savings_total" 1000 spec_profile)
    <= calculate_financial_health_score (set_num "savings_total" 150000 spec_profile).
Proof.
  assert (H : 1000 <= 150000) by (vm_compute; discriminate).
  split; [exact H|].
  apply (health_score_savings_monotone spec_profile 1000 150000). exact H.
Defined.

End HealthScore.

(** ** Risk Assessor *)

Section RiskFactors.
Import Dashboard.

(** Both branches of a conditional store under the same key. *)
Lemma if_insert (c : bool) (k : string) (a b : Q) (m : gmap string Q) :
  (if c then <[k := a]> m else <[k := b]> m) = <[k := if c then a else b]> m.
Proof. by destruct c. Qed.

(** The five entries, in the order the code stores them. *)
Lemma risk_factors_entries (ud : UserData) :
  exists d e i c x,
    calculate_risk_factors ud =
      <["Expense Management" := x]> (<["Insurance Coverage" := c]>
        (<["Investment Risk" := i]> (<["Emergency Fund" := e]>
          (<["Debt Risk" := d]> ∅))))
    /\ (nonneg ud -> 0 <= d <= 10 /\ 0 <= e <= 10 /\ 0 <= i <= 10
                     /\ 0 <= c <= 8 /\ 0 <= x <= 10)
    /\ (get ud "net_monthly_income" 0 <= 0 -> d = 10 /\ c = 8 /\ x = 8)
    /\ (0 < get ud "net_monthly_income" 0 ->
          c = py_max 0 (8 - get ud "insurance" 0 / get ud "net_monthly_income" 0 * 20)).
Proof.
  unfold calculate_risk_factors.
  set (income := get ud "net_monthly_income" 0).
  set (debt := get ud "debts_total" 0).
  set (fund := get ud "emergency_fund" 0).
  set (costs := get ud "fixed_costs_total" 0).
  set (inv := get ud "investments_total" 0).
  set (assets := get ud "assets_total" 0).
  set (ins := get ud "insurance" 0).
  rewrite !if_insert.
  do 5 eexists. split; [reflexivity|]. split; [|split].
  - intros Hnn.
    assert (0 <= debt) by (apply nonneg_get; [done|lra]).
    assert (0 <= fund) by (apply nonneg_get; [done|lra]).
    assert (0 <= costs) by (apply nonneg_get; [done|lra]).
    assert (0 <= ins) by (apply nonneg_get; [done|lra]).
    assert (Hd : 0 < income -> 0 <= debt / (income * 12)).
    { intros. apply Qdiv_nonneg; lra. }
    assert (He : 0 < costs -> 0 <= fund / costs).
    { intros. by apply Qdiv_nonneg. }
    assert (Hc : 0 < income -> 0 <= ins / income).
    { intros. by apply Qdiv_nonneg. }
    assert (Hx : 0 < income -> 0 <= costs / income).
    { intros. by apply Qdiv_nonneg. }
    generalize dependent (debt / (income * 12)). intros rd Hd.
    generalize dependent (fund / costs). intros re He.
    generalize dependent (ins / income). intros rc Hc.
    generalize dependent (costs / income). intros rx Hx.
    generalize (inv / assets). intros ri.
    unfold py_min, py_max.
    repeat split; case_cmp;
      try specialize (Hd ltac:(assumption)); try specialize (He ltac:(assumption));
      try specialize (Hc ltac:(assumption)); try specialize (Hx ltac:(assumption));
      lra.
  - intros Hi. apply Qltb_ge in Hi. unfold Qgtb. by rewrite Hi.
  - intros Hi. apply Qltb_lt in Hi. unfold Qgtb. by rewrite Hi.
Qed.

(** C5: on a profile with non-negative fields the risk factors are a
    mapping with exactly the five category keys and values in [0,10];
    without income, Debt Risk is 10 and Insurance Coverage and Expense
    Management are 8. *)
Theorem risk_factors_shape (ud : UserData) :
  nonneg ud ->
  dom (calculate_risk_factors ud) = risk_keys
  /\ (forall k v, calculate_risk_factors ud !! k = Some v -> 0 <= v <= 10)
  /\ (get ud "net_monthly_income" 0 == 0 ->
        calculate_risk_factors ud !! "Debt Risk" = Some 10
        /\ calculate_risk_factors ud !! "Insurance Coverage" = Some 8
        /\ calculate_risk_factors ud !! "Expense Management" = Some 8).
Proof.
  intros Hnn.
  destruct (risk_factors_entries ud) as (d & e & i & c & x & -> & Hb & H0 & _).
  specialize (Hb Hnn). split; [|split].
  - rewrite !dom_insert_L, dom_empty_L. unfold risk_keys. set_solver.
  - intros k v Hk.
    repeat (apply lookup_insert_Some in Hk as [[_ <-]|[_ Hk]]; [lra|]).
    by rewrite lookup_empty in Hk.
  - intros Hz. destruct H0 as (-> & -> & ->); [lra|].
    by rewrite !lookup_insert.
Qed.

(** C10: Insurance Coverage is at most 8: it is max(0, 8 - ratio*20) with
    an income and the constant 8 without. *)
Theorem insurance_coverage_at_most_8 (ud : UserData) :
  nonneg ud ->
  exists v, calculate_risk_factors ud !! "Insurance Coverage" = Some v
    /\ 0 <= v <= 8
    /\ (0 < get ud "net_monthly_income" 0 ->
          v = py_max 0 (8 - get ud "insurance" 0 / get ud "net_monthly_income" 0 * 20))
    /\ (get ud "net_monthly_income" 0 <= 0 -> v = 8).
Proof.
  intros Hnn.
  destruct (risk_factors_entries ud) as (d & e & i & c & x & -> & Hb & H0 & Hc).
  exists c. split; [by rewrite !lookup_insert|].
  split; [apply Hb, Hnn|]. split; [exact Hc|]. intros H. by apply H0.
Qed.

Lemma risk_factors_shape_witness :
  nonneg gross_only_profile
  /\ dom (calculate_risk_factors gross_only_profile) = risk_keys
  /\ calculate_risk_factors gross_only_profile !! "Debt Risk" = Some 10.
Proof.
  split; [exact gross_only_profile_nonneg|].
  destruct (risk_factors_shape gross_only_profile gross_only_profile_nonneg)
    as (Hd & _ & Hz).
  split; [exact Hd|]. apply Hz. reflexivity.
Defined.

Lemma insurance_coverage_at_most_8_witness :
  nonneg spec_profile
  /\ exists v, calculate_risk_factors spec_profile !! "Insurance Coverage" = Some v
       /\ 0 <= v <= 8.
Proof.
  split; [exact spec_profile_nonneg|].
  destruct (insurance_coverage_at_most_8 spec_profile spec_profile_nonneg)
    as (v & Hv & Hb & _).
  exists v. split; [exact Hv | exact Hb].
Defined.

End RiskFactors.

(** ** Ratio Calculator *)

Section Ratios.
Import Preprocessor.

Lemma get_set_num_default (ud : UserData) (k k' : string) (d : Q) :
  num ud !! k = None -> get (set_num k d ud) k' d = get ud k' d.
Proof.
  intros H. unfold get, set_num; cbn. rewrite lookup_insert.
  destruct (decide (k = k')) as [<-|]; [by rewrite H | done].
Qed.

(** C4, as the claim states it, fails: with a gross income and a net
    income of 0 the mapping holds [tax_efficiency]. *)
Lemma ratios_zero_income_keeps_tax_efficiency :
  get gross_only_profile "net_monthly_income" 0 == 0
  /\ calculate_financial_ratios gross_only_profile !! "tax_efficiency" = Some (0 / 5000)
  /\ ~ (forall k, k ∈ ["tax_efficiency"; "expense_ratio"; "savings_rate"; "debt_to_income"] ->
          calculate_financial_ratios gross_only_profile !! k = None).
Proof.
  split; [reflexivity|]. split; [by vm_compute|].
  intros H. specialize (H "tax_efficiency" ltac:(set_solver)).
  vm_compute in H. discriminate.
Qed.

(** C4, amended: with a net income of 0 the mapping holds none of
    [expense_ratio], [savings_rate], [debt_to_income]; it holds
    [tax_efficiency], with value 0, exactly when the gross income is
    positive. *)
Theorem ratios_without_net_income (ud : UserData) :
  get ud "net_monthly_income" 0 == 0 ->
  calculate_financial_ratios ud !! "expense_ratio" = None
  /\ calculate_financial_ratios ud !! "savings_rate" = None
  /\ calculate_financial_ratios ud !! "debt_to_income" = None
  /\ (is_Some (calculate_financial_ratios ud !! "tax_efficiency")
      <-> 0 < get ud "gross_monthly_income" 0)
  /\ (forall v, calculate_financial_ratios ud !! "tax_efficiency" = Some v -> v == 0).
Proof.
  intros Hnet. unfold calculate_financial_ratios.
  assert (Hn : Qgtb (get ud "net_monthly_income" 0) 0 = false)
    by (apply Qltb_ge; lra).
  rewrite !Hn.
  set (gross := get ud "gross_monthly_income" 0).
  destruct (Qgtb gross 0) eqn:Eg;
    [apply Qltb_lt in Eg | apply Qltb_ge in Eg];
    destruct (Qgtb (get ud "assets_total" 0) 0);
    destruct (Qgtb (get ud "fixed_costs_total" 0) 0);
    rewrite ?lookup_insert_ne, ?lookup_insert_eq, ?lookup_empty by done;
    (repeat split; try done; try (intros [? ?]; done);
     try (intros; lra); try (intros; by eexists));
    intros v [= <-]; rewrite Hnet; unfold Qdiv; lra.
Qed.

Lemma ratios_without_net_income_witness :
  get gross_only_profile "net_monthly_income" 0 == 0
  /\ calculate_financial_ratios gross_only_profile !! "expense_ratio" = None.
Proof.
  assert (H : get gross_only_profile "net_monthly_income" 0 == 0) by reflexivity.
  split; [exact H|].
  exact (proj1 (ratios_without_net_income gross_only_profile H)).
Defined.

End Ratios.

(** ** Feature preparation *)

Section Features.
Import Models.

Lemma encode_known (classes : list string) (label : string) :
  label ∈ classes -> is_Some (encode classes label).
Proof.
  intros H. unfold encode, le_transform.
  destruct (list_find_elem_of (fun c => c = label) classes label H eq_refl) as [[i c] ->].
  by eexists.
Qed.

(** Feature preparation yields a row on every non-empty profile; the
    numeric positions are the plain reads of the profile. *)
Lemma prepare_user_features_row (self : FinancialModels) (ud : UserData) :
  is_empty ud = false ->
  exists income_type_encoded class_encoded,
    prepare_user_features self ud =
      Some [ get ud "household_size" 1; get ud "number_of_kids" 0;
             income_type_encoded; class_encoded;
             get ud "gross_monthly_income" 0; get ud "net_monthly_income" 0;
             get ud "assets_total" 0; get ud "investments_total" 0;
             get ud "savings_total" 0; get ud "debts_total" 0 ].
Proof.
  intros He. unfold prepare_user_features. rewrite He.
  assert (Henc : forall key dflt, exists q,
    match label_encoders self !! key with
    | Some classes =>
      if bool_decide (get_cat ud key dflt ∈ classes)
      then encode classes (get_cat ud key dflt) else Some 0
    | None => Some 0
    end = Some q).
  { intros key dflt. destruct (label_encoders self !! key) as [classes|]; [|by eexists].
    case_bool_decide as Hin; [|by eexists].
    destruct (encode_known _ _ Hin) as [q ->]. by eexists. }
  destruct (Henc "income_type" "single_income") as [it ->].
  destruct (Henc "class" "middle") as [cl ->].
  by exists it, cl.
Qed.

(** C8, as the claim states it, fails: a profile without a household size
    gets the feature value 1, not 0, at that position. *)
Lemma absent_household_size_is_one :
  num income_only_profile !! "household_size" = None
  /\ feature_cols !! 0%nat = Some "household_size"
  /\ prepare_user_features init income_only_profile
     = Some [1; 0; 0; 0; 0; 5000; 0; 0; 0; 0]
  /\ ~ (1 == 0).
Proof. by vm_compute. Qed.

(** C8, amended: on a non-empty profile feature preparation yields a row
    in which an absent [household_size] reads 1 and every other absent
    numeric feature field reads 0; the Ratio Calculator reads every
    absent field as 0. *)
Theorem absent_fields_defaults (self : FinancialModels) (ud : UserData) :
  is_empty ud = false ->
  (exists features, prepare_user_features self ud = Some features
     /\ (num ud !! "household_size" = None -> features !! 0%nat = Some 1)
     /\ (forall (i : nat) (k : string), feature_cols !! i = Some k ->
           k <> "household_size" -> k <> "income_type" -> k <> "class" ->
           num ud !! k = None -> features !! i = Some 0))
  /\ (forall k, num ud !! k = None ->
        Preprocessor.calculate_financial_ratios (set_num k 0 ud)
        = Preprocessor.calculate_financial_ratios ud).
Proof.
  intros He. split.
  - destruct (prepare_user_features_row self ud He) as (it & cl & ->).
    eexists. split; [reflexivity|]. split.
    + intros H. unfold get. by rewrite H.
    + intros i k Hi H1 H2 H3 Hk.
      do 10 (destruct i as [|i]; [injection Hi as <-; try done; unfold get; by rewrite Hk|]).
      done.
  - intros k Hk. unfold Preprocessor.calculate_financial_ratios.
    by rewrite !(get_set_num_default ud k _ 0 Hk).
Qed.

Lemma absent_fields_defaults_witness :
  is_empty income_only_profile = false
  /\ exists features, prepare_user_features init income_only_profile = Some features
       /\ features !! 1%nat = Some 0.
Proof.
  assert (H : is_empty income_only_profile = false) by (by vm_compute).
  split; [exact H|].
  destruct (absent_fields_defaults init income_only_profile H)
    as [(features & Hf & _ & Hz) _].
  exists features. split; [exact Hf|].
  apply (Hz 1%nat "number_of_kids"); by vm_compute.
Defined.

End Features.

(** ** Trained Predictor and Projection Engine *)

Section Predictions.
Import Models.
Variable w : World.

(** Case analysis on the outcome of the next fit of [train_models]. *)
Ltac next_fit :=
  match goal with
  | |- context [match fit_target ?w ?X ?d ?t ?k with _ => _ end] =>
    destruct (fit_target w X d t k); cbn; [done|done|]
  | |- context [match fit_classifier ?w ?X ?d with _ => _ end] =>
    destruct (fit_classifier w X d); cbn; [done|done|]
  | |- context [if fit_scaler ?w ?X then _ else _] =>
    destruct (fit_scaler w X); cbn; [|done]
  end.

Lemma train_models_trained (self : FinancialModels) :
  fst (train_models w self) = true -> is_trained (snd (train_models w self)) = true.
Proof.
  unfold train_models.
  destruct (load_training_data w) as [data|]; [|done].
  destruct (preprocess_data w self (Some data)) as [[[X t]|] s0]; [|done].
  do 5 next_fit. done.
Qed.

Lemma ready_trained (self s : FinancialModels) : ready w self s -> is_trained s = true.
Proof.
  intros [H -> | _ H]; [done|].
  pose proof (train_models_trained self) as Ht. rewrite H in Ht. by apply Ht.
Qed.

Lemma ready_train_if_needed (self s : FinancialModels) :
  ready w self s -> train_if_needed w self = s.
Proof. unfold train_if_needed. intros [ -> -> | -> -> ]; done. Qed.

Lemma ready_cases (self : FinancialModels) :
  is_trained self = true \/ fst (train_models w self) = true ->
  exists s, ready w self s.
Proof.
  intros H. destruct (is_trained self) eqn:Et.
  - exists self. by constructor 1.
  - destruct H as [|H]; [done|]. exists (snd (train_models w self)).
    constructor 2; [done|]. rewrite <- H. apply surjective_pairing.
Qed.

(** A call that the guard stops returns the empty dict. *)
Lemma generate_predictions_stopped (self : FinancialModels) (ud : UserData) :
  is_trained self = false -> fst (train_models w self) = false ->
  fst (generate_predictions w self ud) = Some ∅.
Proof.
  intros Ht Hf. unfold generate_predictions. rewrite Ht.
  destruct (train_models w self) as [b s]. cbn in Hf. by subst b.
Qed.

Lemma ready_idle (self s : FinancialModels) :
  ready w self s -> train_if_needed w s = s.
Proof. intros Hr. unfold train_if_needed. by rewrite (ready_trained _ _ Hr). Qed.

(** The four predictors leave the object as [train_if_needed] makes it,
    whether they return or raise. *)
Lemma snd_predict_expenses (self : FinancialModels) (ud : UserData) :
  snd (predict_expenses w self ud) = train_if_needed w self.
Proof. unfold predict_expenses. repeat case_match; done. Qed.

Lemma snd_predict_investment_potential (self : FinancialModels) (ud : UserData) :
  snd (predict_investment_potential w self ud) = train_if_needed w self.
Proof. unfold predict_investment_potential. repeat case_match; done. Qed.

Lemma snd_assess_risk (self : FinancialModels) (ud : UserData) :
  snd (assess_risk w self ud) = train_if_needed w self.
Proof. unfold assess_risk. repeat case_match; done. Qed.

Lemma snd_predict_insurance_need (self : FinancialModels) (ud : UserData) :
  snd (predict_insurance_need w self ud) = train_if_needed w self.
Proof. unfold predict_insurance_need. repeat case_match; done. Qed.

(** Behind the guard a predictor answers as it does on the object the
    guard was asked about. *)
Lemma predict_expenses_ready (self s : FinancialModels) (ud : UserData) :
  ready w self s -> predict_expenses w s ud = predict_expenses w self ud.
Proof.
  intros Hr. unfold predict_expenses.
  by rewrite (ready_train_if_needed _ _ Hr), (ready_idle _ _ Hr).
Qed.

Lemma predict_investment_potential_ready (self s : FinancialModels) (ud : UserData) :
  ready w self s ->
  predict_investment_potential w s ud = predict_investment_potential w self ud.
Proof.
  intros Hr. unfold predict_investment_potential.
  by rewrite (ready_train_if_needed _ _ Hr), (ready_idle _ _ Hr).
Qed.

Lemma assess_risk_ready (self s : FinancialModels) (ud : UserData) :
  ready w self s -> assess_risk w s ud = assess_risk w self ud.
Proof.
  intros Hr. unfold assess_risk.
  by rewrite (ready_train_if_needed _ _ Hr), (ready_idle _ _ Hr).
Qed.

Lemma predict_insurance_need_ready (self s : FinancialModels) (ud : UserData) :
  ready w self s -> predict_insurance_need w s ud = predict_insurance_need w self ud.
Proof.
  intros Hr. unfold predict_insurance_need.
  by rewrite (ready_train_if_needed _ _ Hr), (ready_idle _ _ Hr).
Qed.

(** A call that the guard lets through raises when one of the three
    regressions raises; otherwise it returns the three records, built from
    the two profile fields, the investment prediction and the risk
    probability. *)
Lemma generate_predictions_ready (self s : FinancialModels) (ud : UserData) :
  ready w self s ->
  fst (generate_predictions w self ud) =
    match fst (predict_expenses w self ud),
          fst (predict_investment_potential w self ud),
          fst (predict_insurance_need w self ud) with
    | Some _, Some investment_pred, Some _ =>
      let risk := fst (assess_risk w self ud) in
      let current_income := get ud "net_monthly_income" 0 in
      let current_savings := get ud "savings_total" 0 in
      Some
        {[ "1_year" :=
             {| savings_growth := current_savings * 1.1 + (current_income * 0.2 * 12);
                investment_returns := investment_pred * 0.12;
                risk_score := risk * 10;
                health_status :=
                  if Qltb risk 0.3 then "Good"
                  else if Qltb risk 0.7 then "Moderate" else "High Risk" |};
           "3_year" :=
             {| savings_growth := current_savings * 1.35 + (current_income * 0.2 * 36);
                investment_returns := investment_pred * 0.4;
                risk_score := risk * 10;
                health_status :=
                  if Qltb risk 0.3 then "Good"
                  else if Qltb risk 0.7 then "Moderate" else "High Risk" |};
           "10_year" :=
             {| savings_growth := current_savings * 2.5 + (current_income * 0.25 * 120);
                investment_returns := investment_pred * 1.8;
                risk_score := risk * 10;
                health_status :=
                  if Qltb risk 0.2 then "Excellent"
                  else if Qltb risk 0.5 then "Good" else "Moderate" |} ]}
    | _, _, _ => None
    end.
Proof.
  intros Hr. pose proof (ready_idle _ _ Hr) as Hn.
  rewrite <- (predict_expenses_ready _ _ ud Hr).
  rewrite <- (predict_investment_potential_ready _ _ ud Hr).
  rewrite <- (assess_risk_ready _ _ ud Hr).
  rewrite <- (predict_insurance_need_ready _ _ ud Hr).
  unfold generate_predictions.
  replace (if is_trained self then (true, self) else train_models w self)
    with (true, s) by (destruct Hr as [ -> -> | -> -> ]; done).
  cbn [negb].
  pose proof (snd_predict_expenses s ud) as H1.
  destruct (predict_expenses w s ud) as [e s1]. cbn in H1. subst s1. rewrite Hn.
  destruct e as [e|]; [|done]. cbn [fst].
  pose proof (snd_predict_investment_potential s ud) as H2.
  destruct (predict_investment_potential w s ud) as [i s2]. cbn in H2. subst s2. rewrite Hn.
  destruct i as [i|]; [|done]. cbn [fst].
  pose proof (snd_assess_risk s ud) as H3.
  destruct (assess_risk w s ud) as [r s3]. cbn in H3. subst s3. rewrite Hn.
  destruct (predict_insurance_need w s ud) as [[n|] s4]; reflexivity.
Qed.

(** Behind the guard the call ends with the object the guard let through,
    whether it returns or raises. *)
Lemma snd_generate_predictions_ready (self s : FinancialModels) (ud : UserData) :
  ready w self s -> snd (generate_predictions w self ud) = s.
Proof.
  intros Hr. pose proof (ready_idle _ _ Hr) as Hn.
  unfold generate_predictions.
  replace (if is_trained self then (true, self) else train_models w self)
    with (true, s) by (destruct Hr as [ -> -> | -> -> ]; done).
  cbn [negb].
  pose proof (snd_predict_expenses s ud) as H1.
  destruct (predict_expenses w s ud) as [e s1]. cbn in H1. subst s1. rewrite Hn.
  destruct e as [e|]; [|done].
  pose proof (snd_predict_investment_potential s ud) as H2.
  destruct (predict_investment_potential w s ud) as [i s2]. cbn in H2. subst s2. rewrite Hn.
  destruct i as [i|]; [|done].
  pose proof (snd_assess_risk s ud) as H3.
  destruct (assess_risk w s ud) as [r s3]. cbn in H3. subst s3. rewrite Hn.
  pose proof (snd_predict_insurance_need s ud) as H4.
  destruct (predict_insurance_need w s ud) as [n s4]. cbn in H4. subst s4. rewrite Hn.
  by destruct n.
Qed.

(** A dict literal of three entries, read at any key. *)
Lemma lookup_three (a b c k : string) (x y z : Horizon) :
  ({[ a := x; b := y; c := z ]} : gmap string Horizon) !! k
  = if decide (k = a) then Some x
    else if decide (k = b) then Some y
    else if decide (k = c) then Some z else None.
Proof.
  rewrite !lookup_insert, lookup_singleton.
  repeat case_decide; congruence.
Qed.

(** C1, amended: a call whose lazy training fails returns the empty
    mapping, with none of the horizon keys.  A call on a trained predictor,
    or one whose lazy training succeeds, returns a mapping with exactly
    the keys 1_year, 3_year and 10_year when the expense, investment and
    insurance regressions return, and raises when one of them raises. *)
Theorem generate_predictions_keys (self : FinancialModels) (ud : UserData) :
  (is_trained self = false -> fst (train_models w self) = false ->
     fst (generate_predictions w self ud) = Some ∅)
  /\ (is_trained self = true \/ fst (train_models w self) = true ->
        (is_Some (fst (predict_expenses w self ud)) ->
         is_Some (fst (predict_investment_potential w self ud)) ->
         is_Some (fst (predict_insurance_need w self ud)) ->
         exists p, fst (generate_predictions w self ud) = Some p
                   /\ dom p = horizon_keys)
        /\ (fst (predict_expenses w self ud) = None
            \/ fst (predict_investment_potential w self ud) = None
            \/ fst (predict_insurance_need w self ud) = None ->
            fst (generate_predictions w self ud) = None)).
Proof.
  split; [apply generate_predictions_stopped|].
  intros H. destruct (ready_cases self H) as [s Hr].
  rewrite (generate_predictions_ready self s ud Hr). split.
  - intros [e ->] [i ->] [n ->]. eexists. split; [reflexivity|].
    rewrite !dom_insert_L, dom_singleton_L. unfold horizon_keys. set_solver.
  - intros [-> | [-> | ->]]; repeat case_match; done.
Qed.

(** C3, amended: when the call gets past the training guard and returns,
    and the risk probability is the neutral 0.5, the health status is
    "Moderate" at all three horizons: 0.5 is not below 0.5, so the 10-year
    record takes its last branch. *)
Theorem neutral_risk_statuses (self : FinancialModels) (ud : UserData)
    (p : gmap string Horizon) :
  is_trained self = true \/ fst (train_models w self) = true ->
  fst (assess_risk w self ud) == 0.5 ->
  fst (generate_predictions w self ud) = Some p ->
  health_status <$> p !! "1_year" = Some "Moderate"
  /\ health_status <$> p !! "3_year" = Some "Moderate"
  /\ health_status <$> p !! "10_year" = Some "Moderate".
Proof.
  intros H Hrisk. destruct (ready_cases self H) as [s Hr].
  rewrite (generate_predictions_ready self s ud Hr).
  destruct (fst (predict_expenses w self ud)); [|done].
  destruct (fst (predict_investment_potential w self ud)); [|done].
  destruct (fst (predict_insurance_need w self ud)); [|done].
  cbn zeta. intros [= <-].
  rewrite !lookup_three.
  repeat (case_decide; try done); cbn.
  repeat split; case_cmp; first [reflexivity | exfalso; lra].
Qed.

Lemma Qltb_compat_l (a b c : Q) : a == b -> Qltb a c = Qltb b c.
Proof. intros H. unfold Qltb. by rewrite H. Qed.

Lemma preprocess_data_swap (self : FinancialModels) (em im : option Regressor)
    (data : option (Frame w)) :
  preprocess_data w (set_insurance_model im (set_expense_model em self)) data
  = (fst (preprocess_data w self data),
     set_insurance_model im (set_expense_model em (snd (preprocess_data w self data)))).
Proof.
  unfold preprocess_data. destruct data as [data|]; [|done].
  cbn [label_encoders set_insurance_model set_expense_model].
  destruct (encode_columns w categorical_cols (label_encoders self) data) as [enc [dc|]];
    [|done].
  by destruct (filter _ feature_cols).
Qed.

(** Training does not read the expense and insurance models: with other
    ones in their place it gives the same flag, the same investment and
    risk models and encoders, and, when it succeeds, the same object. *)
Lemma train_models_swap (self : FinancialModels) (em im : option Regressor) :
  let r := train_models w self in
  let r' := train_models w (set_insurance_model im (set_expense_model em self)) in
  fst r' = fst r
  /\ investment_model (snd r') = investment_model (snd r)
  /\ risk_model (snd r') = risk_model (snd r)
  /\ label_encoders (snd r') = label_encoders (snd r)
  /\ is_trained (snd r') = is_trained (snd r)
  /\ (fst r = true -> snd r' = snd r).
Proof.
  unfold train_models.
  destruct (load_training_data w) as [data|]; [|done].
  rewrite preprocess_data_swap.
  destruct (preprocess_data w self (Some data)) as [[[X t]|] s0]; cbn; [|done].
  do 5 next_fit. done.
Qed.

Lemma train_if_needed_swap (self : FinancialModels) (em im : option Regressor) :
  let s := train_if_needed w self in
  let s' := train_if_needed w (set_insurance_model im (set_expense_model em self)) in
  investment_model s' = investment_model s
  /\ risk_model s' = risk_model s
  /\ label_encoders s' = label_encoders s.
Proof.
  unfold train_if_needed; cbn.
  destruct (is_trained self); [done|].
  destruct (train_models_swap self em im) as (_ & ? & ? & ? & _). done.
Qed.

Lemma predict_investment_potential_swap self em im ud :
  fst (predict_investment_potential w (set_insurance_model im (set_expense_model em self)) ud)
  = fst (predict_investment_potential w self ud).
Proof.
  destruct (train_if_needed_swap self em im) as (Hi & _ & He).
  unfold predict_investment_potential, prepare_user_features.
  rewrite Hi, He. repeat case_match; done.
Qed.

Lemma assess_risk_swap self em im ud :
  fst (assess_risk w (set_insurance_model im (set_expense_model em self)) ud)
  = fst (assess_risk w self ud).
Proof.
  destruct (train_if_needed_swap self em im) as (_ & Hr & He).
  unfold assess_risk, prepare_user_features.
  rewrite Hr, He. repeat case_match; simplify_eq; done.
Qed.

(** C9: take two profiles with the same savings and net income, the same
    outcome of the investment regression and the same risk probability,
    and let the expense and insurance regressions return on both.  Then
    the two calls have the same outcome, with equivalent prediction sets,
    whatever the expense and insurance regressions returned and whichever
    models computed them. *)
Theorem projections_ignore_expense_and_insurance
    (self : FinancialModels) (em im : option Regressor) (ud1 ud2 : UserData) :
  let self' := set_insurance_model im (set_expense_model em self) in
  get ud1 "savings_total" 0 == get ud2 "savings_total" 0 ->
  get ud1 "net_monthly_income" 0 == get ud2 "net_monthly_income" 0 ->
  option_Forall2 Qeq (fst (predict_investment_potential w self ud1))
                     (fst (predict_investment_potential w self ud2)) ->
  fst (assess_risk w self ud1) == fst (assess_risk w self ud2) ->
  is_Some (fst (predict_expenses w self ud1)) ->
  is_Some (fst (predict_expenses w self' ud2)) ->
  is_Some (fst (predict_insurance_need w self ud1)) ->
  is_Some (fst (predict_insurance_need w self' ud2)) ->
  option_Forall2 predictions_equiv
    (fst (generate_predictions w self ud1))
    (fst (generate_predictions w self' ud2)).
Proof.
  intros self' Hs Hn Hi Hr [e1 He1] [e2 He2] [n1 Hn1] [n2 Hn2].
  assert (Ht : is_trained self' = is_trained self) by done.
  destruct (train_models_swap self em im) as (Hf & _ & _ & _ & _ & Hsame).
  fold self' in Hf, Hsame.
  destruct (is_trained self) eqn:Et;
    [|destruct (fst (train_models w self)) eqn:Ef].
  3: { rewrite !generate_predictions_stopped by congruence.
       constructor. intros k. rewrite lookup_empty. constructor. }
  all: destruct (ready_cases self) as [s Hrs]; [by auto|];
       destruct (ready_cases self') as [s' Hrs']; [rewrite ?Ht, ?Hf; by auto|];
       rewrite (generate_predictions_ready self s ud1 Hrs),
               (generate_predictions_ready self' s' ud2 Hrs');
       rewrite He1, He2, Hn1, Hn2;
       unfold self'; rewrite predict_investment_potential_swap, assess_risk_swap;
       destruct Hi as [i1 i2 Hi|]; constructor;
       cbn zeta; intros k; rewrite !lookup_three;
       repeat case_decide; constructor;
       unfold horizon_equiv; cbn;
       rewrite !(Qltb_compat_l _ _ _ Hr); repeat split; try reflexivity;
       rewrite ?Hs, ?Hn, ?Hi, ?Hr; reflexivity.
Qed.

End Predictions.

Section PredictionExamples.
Import Models.

(** C1, as the claim states it, fails: without the reference dataset a
    fresh predictor fails to train and the call returns the empty
    mapping, although each single predictor does fall back to its
    neutral default. *)
Lemma failed_training_gives_no_horizon :
  is_trained init = false
  /\ fst (train_models no_dataset init) = false
  /\ fst (predict_expenses no_dataset init spec_profile) = Some 0
  /\ fst (predict_investment_potential no_dataset init spec_profile) = Some 0
  /\ fst (assess_risk no_dataset init spec_profile) = 0.5
  /\ fst (predict_insurance_need no_dataset init spec_profile) = Some 0
  /\ fst (generate_predictions no_dataset init spec_profile) = Some ∅
  /\ ~ (exists p, fst (generate_predictions no_dataset init spec_profile) = Some p
          /\ forall k, k ∈ ["1_year"; "3_year"; "10_year"] -> is_Some (p !! k)).
Proof.
  repeat (split; [by vm_compute|]).
  intros (p & Hp & H). destruct (H "1_year" ltac:(set_solver)) as [h Hh].
  vm_compute in Hp. injection Hp as <-. vm_compute in Hh. discriminate.
Qed.

Lemma generate_predictions_keys_witness :
  (is_trained init = false /\ fst (train_models no_dataset init) = false
   /\ fst (generate_predictions no_dataset init spec_profile) = Some ∅)
  /\ (fst (train_models (table_world calm_table) init) = true
      /\ exists p, fst (generate_predictions (table_world calm_table) init spec_profile)
                   = Some p
                   /\ dom p = horizon_keys)
  /\ (fst (train_models (table_world narrow_table) init) = true
      /\ fst (predict_expenses (table_world narrow_table) init spec_profile) = None
      /\ fst (generate_predictions (table_world narrow_table) init spec_profile) = None).
Proof.
  assert (H1 : is_trained init = false) by reflexivity.
  assert (H2 : fst (train_models no_dataset init) = false) by reflexivity.
  assert (H3 : fst (train_models (table_world calm_table) init) = true)
    by (vm_compute; reflexivity).
  assert (H4 : fst (train_models (table_world narrow_table) init) = true)
    by (vm_compute; reflexivity).
  assert (H5 : fst (predict_expenses (table_world narrow_table) init spec_profile) = None)
    by (vm_compute; reflexivity).
  split; [|split]; (split; [assumption|]).
  - split; [assumption|].
    exact (proj1 (generate_predictions_keys no_dataset init spec_profile) H1 H2).
  - apply (proj1 (proj2 (generate_predictions_keys (table_world calm_table) init
                           spec_profile) (or_intror H3)));
      vm_compute; by eexists.
  - split; [assumption|].
    exact (proj2 (proj2 (generate_predictions_keys (table_world narrow_table) init
                           spec_profile) (or_intror H4)) (or_introl H5)).
Defined.

(** C3, as the claim states it, fails: with a risk probability at the
    neutral 0.5 the 10-year status is "Moderate", not "Good".  The first
    case is a predictor whose classifier knows one class only; the second
    is a trained predictor on the empty profile, where all four
    predictions are the neutral defaults. *)
Lemma neutral_risk_ten_year_not_good :
  (fst (train_models (table_world calm_table) init) = true
   /\ fst (assess_risk (table_world calm_table) init spec_profile) = 0.5
   /\ exists p,
        fst (generate_predictions (table_world calm_table) init spec_profile) = Some p
        /\ health_status <$> p !! "10_year" = Some "Moderate"
        /\ health_status <$> p !! "10_year" <> Some "Good")
  /\ (fst (train_models (table_world mixed_table) init) = true
      /\ fst (predict_expenses (table_world mixed_table) init empty_profile) = Some 0
      /\ fst (predict_investment_potential (table_world mixed_table) init empty_profile)
         = Some 0
      /\ fst (assess_risk (table_world mixed_table) init empty_profile) = 0.5
      /\ fst (predict_insurance_need (table_world mixed_table) init empty_profile) = Some 0
      /\ exists p,
           fst (generate_predictions (table_world mixed_table) init empty_profile) = Some p
           /\ health_status <$> p !! "10_year" = Some "Moderate"
           /\ health_status <$> p !! "10_year" <> Some "Good").
Proof.
  split; repeat (split; [vm_compute; reflexivity|]).
  - exists (default ∅ (fst (generate_predictions (table_world calm_table) init
                              spec_profile))).
    split; [vm_compute; reflexivity|].
    split; [vm_compute; reflexivity | vm_compute; discriminate].
  - exists (default ∅ (fst (generate_predictions (table_world mixed_table) init
                              empty_profile))).
    split; [vm_compute; reflexivity|].
    split; [vm_compute; reflexivity | vm_compute; discriminate].
Qed.

Lemma neutral_risk_statuses_witness :
  (is_trained init = true \/ fst (train_models (table_world calm_table) init) = true)
  /\ fst (assess_risk (table_world calm_table) init spec_profile) == 0.5
  /\ is_Some (fst (generate_predictions (table_world calm_table) init spec_profile))
  /\ health_status <$>
       default ∅ (fst (generate_predictions (table_world calm_table) init spec_profile))
         !! "10_year"
     = Some "Moderate".
Proof.
  assert (H1 : is_trained init = true
               \/ fst (train_models (table_world calm_table) init) = true)
    by (right; vm_compute; reflexivity).
  assert (H2 : fst (assess_risk (table_world calm_table) init spec_profile) == 0.5)
    by (vm_compute; reflexivity).
  assert (H3 : fst (generate_predictions (table_world calm_table) init spec_profile)
               = Some (default ∅ (fst (generate_predictions (table_world calm_table) init
                                         spec_profile))))
    by (vm_compute; reflexivity).
  split; [exact H1|]. split; [exact H2|]. split; [by rewrite H3|].
  exact (proj2 (proj2
    (neutral_risk_statuses (table_world calm_table) init spec_profile _ H1 H2 H3))).
Defined.

Lemma projections_ignore_expense_and_insurance_witness :
  is_trained calm_predictor = true
  /\ get spec_profile "savings_total" 0 == get frugal_profile "savings_total" 0
  /\ get spec_profile "net_monthly_income" 0 == get frugal_profile "net_monthly_income" 0
  /\ prepare_user_features calm_predictor spec_profile
     <> prepare_user_features calm_predictor frugal_profile
  /\ fst (predict_expenses (table_world calm_table) calm_predictor spec_profile)
     <> fst (predict_expenses (table_world calm_table)
               (set_insurance_model (Some constant_regressor)
                  (set_expense_model (Some constant_regressor) calm_predictor))
               frugal_profile)
  /\ option_Forall2 predictions_equiv
       (fst (generate_predictions (table_world calm_table) calm_predictor spec_profile))
       (fst (generate_predictions (table_world calm_table)
               (set_insurance_model (Some constant_regressor)
                  (set_expense_model (Some constant_regressor) calm_predictor))
               frugal_profile)).
Proof.
  assert (H1 : get spec_profile "savings_total" 0 == get frugal_profile "savings_total" 0)
    by (vm_compute; reflexivity).
  assert (H2 : get spec_profile "net_monthly_income" 0
               == get frugal_profile "net_monthly_income" 0)
    by (vm_compute; reflexivity).
  split; [vm_compute; reflexivity|].
  split; [exact H1|]. split; [exact H2|].
  split; [vm_compute; discriminate|].
  split; [vm_compute; discriminate|].
  apply (projections_ignore_expense_and_insurance (table_world calm_table) calm_predictor
           (Some constant_regressor) (Some constant_regressor)
           spec_profile frugal_profile H1 H2).
  - vm_compute. constructor. reflexivity.
  - vm_compute; reflexivity.
  - vm_compute; by eexists.
  - vm_compute; by eexists.
  - vm_compute; by eexists.
  - vm_compute; by eexists.
Defined.

End PredictionExamples.

(** * Further properties *)

(** ** Quotients against thresholds *)

Lemma Qdiv_lt_iff (a b c : Q) : 0 < b -> (a / b < c <-> a < c * b).
Proof.
  intros Hb. split; intros H.
  - apply Qnot_le_lt. intros Hle. apply (Qle_shift_div_l _ _ _ Hb) in Hle. lra.
  - by apply Qlt_shift_div_r.
Qed.

Lemma Qdiv_le_iff (a b c : Q) : 0 < b -> (c <= a / b <-> c * b <= a).
Proof.
  intros Hb. split; intros H.
  - apply Qnot_lt_le. intros Hlt. apply (Qlt_shift_div_r _ _ _ Hb) in Hlt. lra.
  - by apply Qle_shift_div_l.
Qed.

Lemma py_min_le_r (a b : Q) : py_min a b <= b.
Proof. unfold py_min. case_cmp; lra. Qed.

(** Every comparison of a quotient in the context, turned into a comparison
    of products; the divisor must be known positive. *)
Ltac clear_div :=
  repeat match goal with
  | H : ?a / ?b < ?c |- _ =>
    let Hb := fresh in
    assert (Hb : 0 < b) by (assumption || lra);
    apply (proj1 (Qdiv_lt_iff a b c Hb)) in H; clear Hb
  | H : ?c <= ?a / ?b |- _ =>
    let Hb := fresh in
    assert (Hb : 0 < b) by (assumption || lra);
    apply (proj1 (Qdiv_le_iff a b c Hb)) in H; clear Hb
  end.

(** Membership in a list of string literals. *)
Ltac in_literals :=
  match goal with
  | |- _ ∈ _ => repeat first [apply list_elem_of_here | apply list_elem_of_further]
  | H : _ ∈ _ |- _ =>
    repeat (apply elem_of_cons in H as [H|H]; [discriminate H|]);
    by apply elem_of_nil in H
  end.

(** ** Health Scorer, continued *)

Section HealthScoreMore.
Import Dashboard.

(** X1: on a profile with non-negative fields the score is at least 5, the
    lowest debt tier, and at least 25 when there is an income. *)
Theorem health_score_floor (ud : UserData) :
  nonneg ud ->
  5 <= calculate_financial_health_score ud
  /\ (0 < get ud "net_monthly_income" 0 -> 25 <= calculate_financial_health_score ud).
Proof.
  intros Hnn.
  unfold calculate_financial_health_score.
  pose proof (nonneg_get ud "savings_total" 0 Hnn ltac:(lra)) as Hs.
  set (income := get ud "net_monthly_income" 0) in *.
  set (savings := get ud "savings_total" 0) in *.
  assert (Hrate : 0 < income -> 0 <= savings / 12 / income * 125).
  { intros Hi. apply Qmult_le_0_compat; [|lra].
    apply Qdiv_nonneg; [|exact Hi]. apply Qdiv_nonneg; lra. }
  generalize dependent (savings / 12 / income * 125). intros rate Hrate.
  split; [|intros Hi; specialize (Hrate Hi)];
    (apply py_min_glb; [lra|]);
    unfold py_min; case_cmp; try specialize (Hrate ltac:(assumption)); lra.
Qed.

Lemma health_score_floor_witness :
  nonneg spec_profile /\ 5 <= calculate_financial_health_score spec_profile.
Proof.
  split; [exact spec_profile_nonneg|].
  exact (proj1 (health_score_floor spec_profile spec_profile_nonneg)).
Defined.

(** X2: without a positive net income the score is between 5 and 55, so the
    status is never "Excellent" or "Good", whatever the other fields. *)
Theorem health_score_without_income (ud : UserData) :
  get ud "net_monthly_income" 0 <= 0 ->
  5 <= calculate_financial_health_score ud <= 55
  /\ (get_health_status (calculate_financial_health_score ud) = "Fair"
      \/ get_health_status (calculate_financial_health_score ud) = "Needs Improvement").
Proof.
  intros Hi. apply Qltb_ge in Hi.
  assert (Hb : 5 <= calculate_financial_health_score ud <= 55).
  { unfold calculate_financial_health_score, Qgtb. rewrite !Hi.
    split; [apply py_min_glb; [lra|] | eapply Qle_trans; [apply py_min_le_r|]];
      case_cmp; lra. }
  split; [exact Hb|].
  unfold get_health_status. case_cmp; auto; lra.
Qed.

Lemma health_score_without_income_witness :
  get gross_only_profile "net_monthly_income" 0 <= 0
  /\ 5 <= calculate_financial_health_score gross_only_profile <= 55.
Proof.
  assert (H : get gross_only_profile "net_monthly_income" 0 <= 0)
    by (vm_compute; discriminate).
  split; [exact H|].
  exact (proj1 (health_score_without_income gross_only_profile H)).
Defined.

End HealthScoreMore.

Section HealthScoreTiers.
Import Dashboard.

(** Two sums that end in the same branches on the same tests: the tests
    are decided and the common addends dropped, from the last component
    of the score inwards. *)
Ltac peel :=
  unfold Qgeb, Qgtb;
  repeat first
    [ match goal with
      | |- (if Qltb ?a ?b then _ else _) <= (if Qltb ?a ?b then _ else _) =>
        let E := fresh "E" in
        destruct (Qltb a b) eqn:E; [apply Qltb_lt in E | apply Qltb_ge in E]
      | |- (if negb (Qltb ?a ?b) then _ else _) <= (if negb (Qltb ?a ?b) then _ else _) =>
        let E := fresh "E" in
        destruct (Qltb a b) eqn:E; [apply Qltb_lt in E | apply Qltb_ge in E];
        cbn [negb]
      end
    | apply (proj2 (Qplus_le_l _ _ _))
    | apply Qle_refl ].

(** The reads of a profile with one field set, field by field. *)
Ltac read_fields :=
  repeat match goal with
  | |- context [get (set_num ?k ?v ?ud) ?k' ?d] =>
    first [ rewrite (get_set_num_eq ud k v d)
          | rewrite (get_set_num_ne ud k k' v d) by done ]
  end.

(** X3: each missing denominator caps the score: without positive fixed
    costs the score is at most 85, without positive assets at most 80; so
    a score of 100 needs a positive income, positive fixed costs and
    positive assets. *)
Theorem health_score_caps (ud : UserData) :
  (get ud "fixed_costs_total" 0 <= 0 -> calculate_financial_health_score ud <= 85)
  /\ (get ud "assets_total" 0 <= 0 -> calculate_financial_health_score ud <= 80)
  /\ (calculate_financial_health_score ud == 100 ->
        0 < get ud "net_monthly_income" 0
        /\ 0 < get ud "fixed_costs_total" 0
        /\ 0 < get ud "assets_total" 0).
Proof.
  assert (Hcaps :
    (get ud "net_monthly_income" 0 <= 0 -> calculate_financial_health_score ud <= 55)
    /\ (get ud "fixed_costs_total" 0 <= 0 -> calculate_financial_health_score ud <= 85)
    /\ (get ud "assets_total" 0 <= 0 -> calculate_financial_health_score ud <= 80)).
  { unfold calculate_financial_health_score.
    generalize (get ud "savings_total" 0 / 12 / get ud "net_monthly_income" 0 * 125).
    intros rate.
    repeat split; intros H; (eapply Qle_trans; [apply py_min_le_r|]);
      unfold py_min; case_cmp; lra. }
  destruct Hcaps as (Hi & Hc & Ha).
  split; [exact Hc|]. split; [exact Ha|].
  intros H. repeat split; apply Qnot_le_lt; intros Hle;
    [specialize (Hi Hle) | specialize (Hc Hle) | specialize (Ha Hle)]; lra.
Qed.

(** X4: raising [debts_total] and keeping every other field never raises
    the score. *)
Theorem health_score_debt_antitone (ud : UserData) (d1 d2 : Q) :
  d1 <= d2 ->
  calculate_financial_health_score (set_num "debts_total" d2 ud)
    <= calculate_financial_health_score (set_num "debts_total" d1 ud).
Proof.
  intros Hd. cbv beta delta [calculate_financial_health_score]. read_fields. cbv zeta.
  set (income := get ud "net_monthly_income" 0).
  set (annual := if Qgtb income 0 then income * 12 else 1).
  assert (Ha : 0 < annual).
  { unfold annual. case_cmp; lra. }
  pose proof (Qdiv_mono_l d1 d2 annual Hd Ha) as Hr.
  generalize dependent (d1 / annual). intros r1.
  generalize (d2 / annual). intros r2 Hr.
  apply py_min_mono_r. peel.
  all: match goal with
       | |- (if _ then ?S + _ else _) <= _ => generalize S; intros base
       end.
  all: case_cmp; lra.
Qed.

Lemma health_score_debt_antitone_witness :
  0 <= 800000 /\
  calculate_financial_health_score (set_num "debts_total" 800000 spec_profile)
    <= calculate_financial_health_score (set_num "debts_total" 0 spec_profile).
Proof.
  assert (H : 0 <= 800000) by (vm_compute; discriminate).
  split; [exact H|].
  apply (health_score_debt_antitone spec_profile 0 800000). exact H.
Defined.

(** X5: raising [emergency_fund] and keeping every other field never
    lowers the score. *)
Theorem health_score_emergency_fund_monotone (ud : UserData) (f1 f2 : Q) :
  f1 <= f2 ->
  calculate_financial_health_score (set_num "emergency_fund" f1 ud)
    <= calculate_financial_health_score (set_num "emergency_fund" f2 ud).
Proof.
  intros Hf. cbv beta delta [calculate_financial_health_score]. read_fields. cbv zeta.
  set (costs := get ud "fixed_costs_total" 0).
  assert (Hr : 0 < costs -> f1 / costs <= f2 / costs).
  { intros. by apply Qdiv_mono_l. }
  generalize dependent (f1 / costs). intros r1.
  generalize (f2 / costs). intros r2 Hr.
  apply py_min_mono_r. peel.
  all: match goal with
       | |- (if _ then ?S + _ else _) <= _ => generalize S; intros base
       end.
  all: case_cmp; try specialize (Hr ltac:(assumption)); lra.
Qed.

Lemma health_score_emergency_fund_monotone_witness :
  0 <= 200000 /\
  calculate_financial_health_score (set_num "emergency_fund" 0 spec_profile)
    <= calculate_financial_health_score (set_num "emergency_fund" 200000 spec_profile).
Proof.
  assert (H : 0 <= 200000) by (vm_compute; discriminate).
  split; [exact H|].
  apply (health_score_emergency_fund_monotone spec_profile 0 200000). exact H.
Defined.

End HealthScoreTiers.

(** ** Risk Assessor and action items *)

Section Advice.
Import Dashboard.

(** The five risk factors as the dashboard reads them back. *)
Lemma risk_factor_values (ud : UserData) :
  let income := get ud "net_monthly_income" 0 in
  let costs := get ud "fixed_costs_total" 0 in
  let assets := get ud "assets_total" 0 in
  let ratio := get ud "investments_total" 0 / assets in
  let rf := calculate_risk_factors ud in
  factor rf "Debt Risk"
    = (if Qgtb income 0
       then py_min 10 (get ud "debts_total" 0 / (income * 12) * 25) else 10)
  /\ factor rf "Emergency Fund"
     = (if Qgtb costs 0
        then py_max 0 (10 - get ud "emergency_fund" 0 / costs * 1.5) else 8)
  /\ factor rf "Investment Risk"
     = (if Qgtb assets 0
        then if Qgtb ratio 0.8 then 7 else if Qltb ratio 0.1 then 6 else 3
        else 5)
  /\ factor rf "Insurance Coverage"
     = (if Qgtb income 0
        then py_max 0 (8 - get ud "insurance" 0 / income * 20) else 8)
  /\ factor rf "Expense Management"
     = (if Qgtb income 0 then py_min 10 (costs / income * 12) else 8).
Proof.
  cbv zeta. unfold calculate_risk_factors, factor. rewrite !if_insert.
  rewrite ?lookup_insert_eq, ?lookup_insert_ne by done.
  repeat split; reflexivity.
Qed.

(** The four suggestions of the risk tab, each with its test. *)
Lemma risk_suggestions_members (rf : gmap string Q) :
  (("Consider debt consolidation or faster repayment strategies" ∈ risk_suggestions rf)
     <-> 6 < factor rf "Debt Risk")
  /\ (("Build emergency fund to cover 6 months of expenses" ∈ risk_suggestions rf)
      <-> 6 < factor rf "Emergency Fund")
  /\ (("Diversify your investment portfolio" ∈ risk_suggestions rf)
      <-> 7 < factor rf "Investment Risk")
  /\ (("Review and increase your insurance coverage" ∈ risk_suggestions rf)
      <-> 6 < factor rf "Insurance Coverage").
Proof.
  unfold risk_suggestions.
  generalize (factor rf "Debt Risk") (factor rf "Emergency Fund")
             (factor rf "Investment Risk") (factor rf "Insurance Coverage").
  intros d e i c. case_cmp; cbn [app];
    repeat split; intros; first [lra | in_literals].
Qed.

(** The four action items, each with its test. *)
Lemma action_items_members (ud : UserData) :
  (("Build emergency fund to cover 3-6 months of expenses" ∈ generate_action_items ud)
     <-> 0 < get ud "fixed_costs_total" 0
         /\ get ud "emergency_fund" 0 < 3 * get ud "fixed_costs_total" 0)
  /\ (("Create a debt repayment plan to reduce high debt levels" ∈ generate_action_items ud)
      <-> 0 < get ud "net_monthly_income" 0
          /\ get ud "net_monthly_income" 0 * 6 < get ud "debts_total" 0)
  /\ (("Consider moving some savings to investments for better returns"
         ∈ generate_action_items ud)
      <-> get ud "investments_total" 0 * 2 < get ud "savings_total" 0)
  /\ (("Review and potentially increase your insurance coverage" ∈ generate_action_items ud)
      <-> 0 < get ud "net_monthly_income" 0
          /\ get ud "insurance" 0 < get ud "net_monthly_income" 0 * 0.1).
Proof.
  unfold generate_action_items.
  generalize (get ud "fixed_costs_total" 0) (get ud "emergency_fund" 0)
             (get ud "net_monthly_income" 0) (get ud "debts_total" 0)
             (get ud "investments_total" 0) (get ud "savings_total" 0)
             (get ud "insurance" 0).
  intros costs fund income debt inv savings ins.
  case_cmp; cbn [andb app take]; clear_div;
    repeat split; intros; first [lra | in_literals].
Qed.

(** X6: the Investment Risk factor is one of 7, 6, 3 and 5, never above 7:
    the risk tab never suggests to diversify the portfolio and never shows
    this factor at the level "High". *)
Theorem never_suggests_diversification (ud : UserData) :
  factor (calculate_risk_factors ud) "Investment Risk" <= 7
  /\ ("Diversify your investment portfolio"
        ∉ risk_suggestions (calculate_risk_factors ud))
  /\ risk_level (factor (calculate_risk_factors ud) "Investment Risk") <> "High".
Proof.
  destruct (risk_factor_values ud) as (_ & _ & Hi & _). cbv zeta in Hi.
  assert (H : factor (calculate_risk_factors ud) "Investment Risk" <= 7).
  { rewrite Hi. case_cmp; lra. }
  split; [exact H|]. split.
  - intros Hin. apply risk_suggestions_members in Hin. lra.
  - unfold risk_level. case_cmp; [lra|discriminate|discriminate].
Qed.


(** X8: without a positive income the two advice lists disagree: the risk
    tab suggests debt consolidation and an insurance review, whatever the
    debt and the insurance are, and the action list asks for neither a
    debt repayment plan nor an insurance review. *)
Theorem advice_without_income (ud : UserData) :
  get ud "net_monthly_income" 0 <= 0 ->
  ("Consider debt consolidation or faster repayment strategies"
     ∈ risk_suggestions (calculate_risk_factors ud))
  /\ ("Review and increase your insurance coverage"
        ∈ risk_suggestions (calculate_risk_factors ud))
  /\ ("Create a debt repayment plan to reduce high debt levels"
        ∉ generate_action_items ud)
  /\ ("Review and potentially increase your insurance coverage"
        ∉ generate_action_items ud).
Proof.
  intros Hi.
  destruct (action_items_members ud) as (_ & Hd & _ & Ha).
  destruct (risk_suggestions_members (calculate_risk_factors ud)) as (Hsd & _ & _ & Hs).
  destruct (risk_factor_values ud) as (Hdr & _ & _ & Hc & _). cbv zeta in Hdr, Hc.
  rewrite Ha, Hd, Hs, Hsd, Hdr, Hc. clear Ha Hd Hs Hsd Hdr Hc.
  apply Qltb_ge in Hi. unfold Qgtb. rewrite Hi. apply Qltb_ge in Hi.
  repeat split; lra.
Qed.

Lemma advice_without_income_witness :
  get gross_only_profile "net_monthly_income" 0 <= 0
  /\ ("Review and increase your insurance coverage"
        ∈ risk_suggestions (calculate_risk_factors gross_only_profile))
  /\ ("Review and potentially increase your insurance coverage"
        ∉ generate_action_items gross_only_profile).
Proof.
  assert (H : get gross_only_profile "net_monthly_income" 0 <= 0)
    by (vm_compute; discriminate).
  split; [exact H|].
  destruct (advice_without_income gross_only_profile H) as (_ & Hs & _ & Ha).
  split; assumption.
Defined.



End Advice.

(** ** Ratio Calculator, continued *)

Section RatiosMore.
Import Preprocessor Dashboard.

Lemma if_insert_keep (c : bool) (k : string) (a : Q) (m : gmap string Q) :
  (if c then <[k := a]> m else m) !! k
  = if c then Some a else m !! k.
Proof. destruct c; [by rewrite lookup_insert_eq | done]. Qed.

Lemma if_insert_other (c : bool) (k k' : string) (a : Q) (m : gmap string Q) :
  k <> k' -> (if c then <[k := a]> m else m) !! k' = m !! k'.
Proof. intros. destruct c; [by rewrite lookup_insert_ne | done]. Qed.

(** The ratio mapping, read at any key. *)
Lemma ratio_values (ud : UserData) (k : string) :
  let net := get ud "net_monthly_income" 0 in
  let gross := get ud "gross_monthly_income" 0 in
  let costs := get ud "fixed_costs_total" 0 in
  let assets := get ud "assets_total" 0 in
  calculate_financial_ratios ud !! k =
    if decide (k = "emergency_fund_months")
    then (if Qgtb costs 0 then Some (get ud "emergency_fund" 0 / costs) else None)
    else if decide (k = "investment_allocation")
    then (if Qgtb assets 0 then Some (get ud "investments_total" 0 / assets) else None)
    else if decide (k = "debt_to_income")
    then (if Qgtb net 0 then Some (get ud "debts_total" 0 / (net * 12)) else None)
    else if decide (k = "savings_rate")
    then (if Qgtb net 0 then Some (get ud "savings_total" 0 / 12 / net) else None)
    else if decide (k = "expense_ratio")
    then (if Qgtb net 0 then Some (costs / net) else None)
    else if decide (k = "tax_efficiency")
    then (if Qgtb gross 0 then Some (net / gross) else None)
    else None.
Proof.
  cbv zeta. unfold calculate_financial_ratios.
  repeat (case_decide;
          [subst k; rewrite ?if_insert_other by done; by rewrite if_insert_keep,
                                                          ?if_insert_other, ?lookup_empty by done
          | rewrite (if_insert_other _ _ k) by done ]).
  apply lookup_empty.
Qed.

(** X10: the risk factors are functions of the ratios: Debt Risk is
    min(10, 25 * debt_to_income), Emergency Fund is
    max(0, 10 - 1.5 * emergency_fund_months) and Expense Management is
    min(10, 12 * expense_ratio); where the ratio is absent the factor is
    its fallback 10, 8 and 8. *)
Theorem risk_factors_from_ratios (ud : UserData) :
  factor (calculate_risk_factors ud) "Debt Risk"
    = match calculate_financial_ratios ud !! "debt_to_income" with
      | Some r => py_min 10 (r * 25)
      | None => 10
      end
  /\ factor (calculate_risk_factors ud) "Emergency Fund"
     = match calculate_financial_ratios ud !! "emergency_fund_months" with
       | Some r => py_max 0 (10 - r * 1.5)
       | None => 8
       end
  /\ factor (calculate_risk_factors ud) "Expense Management"
     = match calculate_financial_ratios ud !! "expense_ratio" with
       | Some r => py_min 10 (r * 12)
       | None => 8
       end.
Proof.
  destruct (risk_factor_values ud) as (-> & -> & _ & _ & ->).
  rewrite !ratio_values. cbv zeta.
  repeat (case_decide; [done|]); repeat (case_decide; [|done]).
  repeat split; by case_match.
Qed.

(** X11: a ratio is in the mapping exactly when its denominator is
    positive, and the mapping has no other key. *)
Theorem ratios_presence (ud : UserData) :
  (is_Some (calculate_financial_ratios ud !! "tax_efficiency")
     <-> 0 < get ud "gross_monthly_income" 0)
  /\ (is_Some (calculate_financial_ratios ud !! "expense_ratio")
      <-> 0 < get ud "net_monthly_income" 0)
  /\ (is_Some (calculate_financial_ratios ud !! "savings_rate")
      <-> 0 < get ud "net_monthly_income" 0)
  /\ (is_Some (calculate_financial_ratios ud !! "debt_to_income")
      <-> 0 < get ud "net_monthly_income" 0)
  /\ (is_Some (calculate_financial_ratios ud !! "investment_allocation")
      <-> 0 < get ud "assets_total" 0)
  /\ (is_Some (calculate_financial_ratios ud !! "emergency_fund_months")
      <-> 0 < get ud "fixed_costs_total" 0)
  /\ (forall k, is_Some (calculate_financial_ratios ud !! k) ->
        k ∈ ["tax_efficiency"; "expense_ratio"; "savings_rate"; "debt_to_income";
             "investment_allocation"; "emergency_fund_months"]).
Proof.
  assert (Hsome : forall (c : Q) (v : Q),
            is_Some (if Qgtb c 0 then Some v else None) <-> 0 < c).
  { intros c v. unfold Qgtb. rewrite <- Qltb_lt.
    destruct (Qltb 0 c); split; intros H; first [done | by eexists | by destruct H]. }
  repeat split; try (rewrite ratio_values; cbv zeta; apply Hsome);
    try (rewrite ratio_values; cbv zeta; apply Hsome).
  intros k. rewrite ratio_values. cbv zeta.
  repeat (case_decide; [subst k; intros _;
            repeat first [apply list_elem_of_here | apply list_elem_of_further]|]).
  by intros [? ?].
Qed.

(** X12: on a profile with non-negative fields every ratio of the mapping
    is non-negative. *)
Theorem ratios_nonneg (ud : UserData) :
  nonneg ud ->
  forall k v, calculate_financial_ratios ud !! k = Some v -> 0 <= v.
Proof.
  intros Hnn k v. rewrite ratio_values. cbv zeta.
  assert (Hg : forall key, 0 <= get ud key 0) by (intros; apply nonneg_get; [done|lra]).
  repeat case_decide; try done;
    unfold Qgtb; case_match eqn:E; try done; apply Qltb_lt in E;
    intros [= <-]; repeat apply Qdiv_nonneg; auto; try lra.
Qed.

Lemma ratios_nonneg_witness :
  nonneg spec_profile
  /\ forall k v, calculate_financial_ratios spec_profile !! k = Some v -> 0 <= v.
Proof.
  split; [exact spec_profile_nonneg|].
  exact (ratios_nonneg spec_profile spec_profile_nonneg).
Defined.

End RatiosMore.

(** ** Label encoders and training *)

Section Training.
Import Models.
Variable w : World.

(** Encoding a label against fitted classes and reading the classes back at
    the code is a round trip: a known label gets a code, the class at that
    code is the label, and it is the first such position; an unseen label
    gets none; two labels with the same code are the same label. *)
Lemma le_transform_round_trip (classes : list string) :
  (forall label, label ∈ classes -> is_Some (le_transform classes label))
  /\ (forall label i, le_transform classes label = Some i ->
        classes !! i = Some label
        /\ forall j, (j < i)%nat -> classes !! j <> Some label)
  /\ (forall label, label ∉ classes -> le_transform classes label = None)
  /\ (forall a b i, le_transform classes a = Some i ->
        le_transform classes b = Some i -> a = b).
Proof.
  assert (Hsome : forall label i, le_transform classes label = Some i ->
            classes !! i = Some label
            /\ forall j, (j < i)%nat -> classes !! j <> Some label).
  { intros label i. unfold le_transform. intros H.
    apply fmap_Some in H as ([i' c] & Hfind & ->).
    apply list_find_Some in Hfind as (Hi & -> & Hfirst). cbn. split; [done|].
    intros j Hj Hjl. by apply (Hfirst j label). }
  repeat split.
  - intros label Hin. unfold le_transform.
    destruct (list_find_elem_of (fun c => c = label) classes label Hin eq_refl)
      as [[i c] ->]. by eexists.
  - by apply Hsome.
  - by apply Hsome.
  - intros label Hnin. unfold le_transform.
    destruct (list_find _ classes) as [[i c]|] eqn:Hfind; [|done].
    apply list_find_Some in Hfind as (Hi & -> & _).
    destruct Hnin. by apply list_elem_of_lookup_2 in Hi.
  - intros a b i Ha Hb.
    apply Hsome in Ha as [Ha _]. apply Hsome in Hb as [Hb _]. congruence.
Qed.

(** The loop over the categorical columns keeps every encoder it finds. *)
Lemma encode_columns_keeps (cols : list string) (encoders : gmap string (list string))
    (data : Frame w) (col : string) (classes : list string) :
  encoders !! col = Some classes ->
  fst (encode_columns w cols encoders data) !! col = Some classes.
Proof.
  revert encoders data. induction cols as [|c cols IH]; intros encoders data He; [done|].
  cbn [encode_columns]. destruct (has_column w data c); [|by apply IH].
  destruct (encoders !! c) as [cl|] eqn:Ec.
  - destruct (mapM _ _); [by apply IH | done].
  - assert (c <> col) by congruence.
    destruct (mapM _ _); [apply IH|]; cbn; by rewrite lookup_insert_ne.
Qed.

Lemma preprocess_data_keeps (self : FinancialModels) (data : option (Frame w))
    (col : string) (classes : list string) :
  label_encoders self !! col = Some classes ->
  label_encoders (snd (preprocess_data w self data)) !! col = Some classes.
Proof.
  intros He. unfold preprocess_data. destruct data as [data|]; [|done].
  pose proof (encode_columns_keeps categorical_cols (label_encoders self) data col classes He)
    as Hk.
  destruct (encode_columns w categorical_cols (label_encoders self) data) as [enc [dc|]];
    [|done].
  by destruct (filter _ feature_cols).
Qed.

(** Preprocessing touches the encoders only, and the target table it
    returns is the fixed one. *)
Lemma preprocess_data_frame (self : FinancialModels) (data : Frame w) :
  let r := preprocess_data w self (Some data) in
  expense_model (snd r) = expense_model self
  /\ investment_model (snd r) = investment_model self
  /\ risk_model (snd r) = risk_model self
  /\ insurance_model (snd r) = insurance_model self
  /\ is_trained (snd r) = is_trained self
  /\ forall X t, fst r = Some (X, t) -> t = targets.
Proof.
  unfold preprocess_data.
  destruct (encode_columns w categorical_cols (label_encoders self) data) as [enc [dc|]];
    [|done].
  destruct (filter _ feature_cols); [done|].
  cbn. repeat split. by intros X t [= _ <-].
Qed.

(** Case analysis on the outcome of the next fit of [train_models]. *)
Ltac fit_outcome tac :=
  match goal with
  | |- context [match fit_target ?w ?X ?d ?t ?k with _ => _ end] =>
    destruct (fit_target w X d t k) eqn:?; cbn; [tac|tac|]
  | |- context [match fit_classifier ?w ?X ?d with _ => _ end] =>
    destruct (fit_classifier w X d) eqn:?; cbn; [tac|tac|]
  | |- context [if fit_scaler ?w ?X then _ else _] =>
    destruct (fit_scaler w X) eqn:?; cbn; [|tac]
  end.

(** X14: encoders are fitted once: training, whether it succeeds or fails
    and however often it runs, never replaces the classes of a column that
    already has an encoder. *)
Theorem encoders_fit_once (self : FinancialModels) (col : string) (classes : list string) :
  label_encoders self !! col = Some classes ->
  label_encoders (snd (train_models w self)) !! col = Some classes
  /\ label_encoders (snd (train_models w (snd (train_models w self)))) !! col = Some classes.
Proof.
  assert (Hone : forall s, label_encoders s !! col = Some classes ->
            label_encoders (snd (train_models w s)) !! col = Some classes).
  { intros s He. unfold train_models.
    destruct (load_training_data w) as [data|]; [|done].
    pose proof (preprocess_data_keeps s (Some data) col classes He) as Hk.
    destruct (preprocess_data w s (Some data)) as [[[X t]|] s0]; cbn in *; [|done].
    do 5 fit_outcome done. done. }
  intros He. split; [by apply Hone | by apply Hone, Hone].
Qed.

(** A training run that gets as far as the fits. *)
Lemma train_models_fits (self s0 : FinancialModels) (data X : Frame w) :
  read_csv w = Some data ->
  preprocess_data w self (Some data) = (Some (X, targets), s0) ->
  let r := train_models w self in
  (fst r = true ->
     is_trained (snd r) = true
     /\ exists e i c n,
          fit_regressor w X data "fixed_costs_total" = Fitted e
          /\ fit_regressor w X data "investments_total" = Fitted i
          /\ fit_classifier w X data = Fitted c
          /\ fit_regressor w X data "insurance" = Fitted n
          /\ expense_model (snd r) = Some e
          /\ investment_model (snd r) = Some i
          /\ risk_model (snd r) = Some c
          /\ insurance_model (snd r) = Some n)
  /\ (fst r = false -> is_trained (snd r) = is_trained s0)
  /\ (fit_regressor w X data "fixed_costs_total" = FitRaised ->
        fst r = false /\ expense_model (snd r) = Some unfitted_regressor).
Proof.
  intros Hcsv Hpre. cbv zeta. unfold train_models, load_training_data.
  rewrite Hcsv, Hpre.
  change (fit_target w X data targets "expense_prediction")
    with (fit_regressor w X data "fixed_costs_total").
  change (fit_target w X data targets "investment_score")
    with (fit_regressor w X data "investments_total").
  change (fit_target w X data targets "insurance_gap")
    with (fit_regressor w X data "insurance").
  destruct (fit_regressor w X data "fixed_costs_total") as [| |e]; cbn; [done..|].
  destruct (fit_regressor w X data "investments_total") as [| |i]; cbn; [done..|].
  destruct (fit_classifier w X data) as [| |c]; cbn; [done..|].
  destruct (fit_regressor w X data "insurance") as [| |n]; cbn; [done..|].
  destruct (fit_scaler w X); cbn; [|done].
  split; [|done]. intros _. split; [done|]. by exists e, i, c, n.
Qed.

(** X15: what a training run leaves behind.  When it reports success the
    object is trained and its four model attributes hold the estimators
    this run fitted.  When it reports failure [is_trained] is as before,
    so a run never clears it.  A run whose expense fit raises reports
    failure and leaves an unfitted estimator in [expense_model], whatever
    was there before. *)
Theorem train_models_outcome (self : FinancialModels) :
  let r := train_models w self in
  (fst r = true ->
     is_trained (snd r) = true
     /\ exists data X e i c n,
          read_csv w = Some data
          /\ fst (preprocess_data w self (Some data)) = Some (X, targets)
          /\ fit_regressor w X data "fixed_costs_total" = Fitted e
          /\ fit_regressor w X data "investments_total" = Fitted i
          /\ fit_classifier w X data = Fitted c
          /\ fit_regressor w X data "insurance" = Fitted n
          /\ expense_model (snd r) = Some e
          /\ investment_model (snd r) = Some i
          /\ risk_model (snd r) = Some c
          /\ insurance_model (snd r) = Some n)
  /\ (fst r = false -> is_trained (snd r) = is_trained self)
  /\ (forall data X, read_csv w = Some data ->
        fst (preprocess_data w self (Some data)) = Some (X, targets) ->
        fit_regressor w X data "fixed_costs_total" = FitRaised ->
        fst r = false /\ expense_model (snd r) = Some unfitted_regressor).
Proof.
  cbv zeta.
  destruct (read_csv w) as [data|] eqn:Hcsv.
  2: { unfold train_models, load_training_data. rewrite Hcsv. by repeat split. }
  destruct (preprocess_data_frame self data) as (_ & _ & _ & _ & Ht & Htargets).
  destruct (preprocess_data w self (Some data)) as [[[X t]|] s0] eqn:Hpre;
    cbn [fst snd] in Ht, Htargets.
  2: { unfold train_models, load_training_data. rewrite Hcsv, Hpre. cbn [fst snd].
       split; [done|]. split; [done|].
       intros d X [= <-] Hp. rewrite Hpre in Hp. discriminate Hp. }
  pose proof (Htargets X t eq_refl) as ->. clear Htargets.
  destruct (train_models_fits self s0 data X Hcsv Hpre) as (Hok & Hfail & Hraise).
  split; [|split].
  - intros Hs. destruct (Hok Hs) as (Htr & e & i & c & n & Hfits).
    split; [exact Htr|]. exists data, X, e, i, c, n.
    split; [reflexivity|]. split; [by rewrite Hpre|]. exact Hfits.
  - intros Hf. by rewrite (Hfail Hf).
  - intros d X' [= <-] Hp Hfit. rewrite Hpre in Hp. injection Hp as <-.
    by apply Hraise.
Qed.

End Training.

Section TrainingWitnesses.
Import Models.

Lemma encoders_fit_once_witness :
  label_encoders trained_predictor !! "class" = Some ["middle"; "poor"; "rich"]
  /\ label_encoders (snd (train_models no_dataset trained_predictor)) !! "class"
     = Some ["middle"; "poor"; "rich"].
Proof.
  assert (H : label_encoders trained_predictor !! "class" = Some ["middle"; "poor"; "rich"])
    by (vm_compute; reflexivity).
  split; [exact H|].
  exact (proj1 (encoders_fit_once no_dataset trained_predictor "class" _ H)).
Defined.

Lemma train_models_outcome_witness :
  fst (train_models (table_world calm_table) init) = true
  /\ is_trained calm_predictor = true.
Proof.
  assert (H : fst (train_models (table_world calm_table) init) = true)
    by (vm_compute; reflexivity).
  split; [exact H|].
  exact (proj1 (proj1 (train_models_outcome (table_world calm_table) init) H)).
Defined.

(** A training that fails on a trained predictor: the expense fit raises,
    the predictor stays trained with an unfitted expense model, and where
    the expense regression answered before, it raises now, and with it
    [generate_predictions]. *)
Lemma failed_training_of_trained_predictor :
  let after := snd (train_models brittle_world calm_predictor) in
  is_trained calm_predictor = true
  /\ is_Some (fst (predict_expenses (table_world calm_table) calm_predictor spec_profile))
  /\ fst (train_models brittle_world calm_predictor) = false
  /\ is_trained after = true
  /\ fst (predict_expenses (table_world calm_table) after spec_profile) = None
  /\ fst (generate_predictions (table_world calm_table) after spec_profile) = None.
Proof.
  cbv zeta. split; [vm_compute; reflexivity|].
  split; [vm_compute; by eexists|].
  repeat split; vm_compute; reflexivity.
Qed.

End TrainingWitnesses.

(** ** Predictions, continued *)

Section PredictionsMore.
Import Models.
Variable w : World.

(** X16: without the reference dataset training changes nothing and
    reports failure; an untrained predictor then answers every
    [generate_predictions] with the empty mapping and stays as it was, and a
    fresh predictor answers the four single predictions with 0, 0, 0.5
    and 0. *)
Theorem missing_dataset_behaviour (self : FinancialModels) (ud : UserData) :
  read_csv w = None ->
  train_models w self = (false, self)
  /\ (is_trained self = false -> generate_predictions w self ud = (Some ∅, self))
  /\ predict_expenses w init ud = (Some 0, init)
  /\ predict_investment_potential w init ud = (Some 0, init)
  /\ assess_risk w init ud = (0.5, init)
  /\ predict_insurance_need w init ud = (Some 0, init).
Proof.
  intros Hcsv.
  assert (Ht : forall s, train_models w s = (false, s)).
  { intros s. unfold train_models, load_training_data. by rewrite Hcsv. }
  split; [apply Ht|]. split.
  - intros Hu. unfold generate_predictions. by rewrite Hu, Ht.
  - unfold predict_expenses, predict_investment_potential, assess_risk,
      predict_insurance_need, train_if_needed. rewrite Ht. cbn.
    by destruct (prepare_user_features init ud).
Qed.

(** X17: a call that gets past the training guard leaves a trained object,
    whether it returns or raises, and the same call on that object has the
    same outcome and leaves the same object: the predictions are computed
    afresh, or the same exception is raised again, without training
    again. *)
Theorem generate_predictions_idempotent (self : FinancialModels) (ud : UserData) :
  is_trained self = true \/ fst (train_models w self) = true ->
  is_trained (snd (generate_predictions w self ud)) = true
  /\ generate_predictions w (snd (generate_predictions w self ud)) ud
     = generate_predictions w self ud.
Proof.
  intros H. destruct (ready_cases w self H) as [s Hr].
  pose proof (ready_trained _ _ _ Hr) as Hs.
  assert (Hrs : ready w s s) by (by constructor 1).
  rewrite (snd_generate_predictions_ready w self s ud Hr). split; [exact Hs|].
  rewrite (surjective_pairing (generate_predictions w s ud)),
          (surjective_pairing (generate_predictions w self ud)).
  rewrite (snd_generate_predictions_ready w self s ud Hr),
          (snd_generate_predictions_ready w s s ud Hrs).
  rewrite (generate_predictions_ready w self s ud Hr),
          (generate_predictions_ready w s s ud Hrs).
  by rewrite (predict_expenses_ready w self s ud Hr),
             (predict_investment_potential_ready w self s ud Hr),
             (assess_risk_ready w self s ud Hr),
             (predict_insurance_need_ready w self s ud Hr).
Qed.

(** The prediction set of a call that got past the guard and returned holds
    the three records, built from the investment prediction and the risk
    probability. *)
Lemma generate_predictions_records (self : FinancialModels) (ud : UserData)
    (p : gmap string Horizon) :
  is_trained self = true \/ fst (train_models w self) = true ->
  fst (generate_predictions w self ud) = Some p ->
  exists investment_pred h1 h3 h10,
    fst (predict_investment_potential w self ud) = Some investment_pred
    /\ p !! "1_year" = Some h1
    /\ p !! "3_year" = Some h3
    /\ p !! "10_year" = Some h10
    /\ let risk := fst (assess_risk w self ud) in
       let income := get ud "net_monthly_income" 0 in
       let savings := get ud "savings_total" 0 in
       savings_growth h1 = savings * 1.1 + (income * 0.2 * 12)
       /\ savings_growth h3 = savings * 1.35 + (income * 0.2 * 36)
       /\ savings_growth h10 = savings * 2.5 + (income * 0.25 * 120)
       /\ investment_returns h1 = investment_pred * 0.12
       /\ investment_returns h3 = investment_pred * 0.4
       /\ investment_returns h10 = investment_pred * 1.8
       /\ risk_score h1 = risk * 10 /\ risk_score h3 = risk * 10
       /\ risk_score h10 = risk * 10
       /\ health_status h1
          = (if Qltb risk 0.3 then "Good"
             else if Qltb risk 0.7 then "Moderate" else "High Risk")
       /\ health_status h3 = health_status h1
       /\ health_status h10
          = (if Qltb risk 0.2 then "Excellent"
             else if Qltb risk 0.5 then "Good" else "Moderate").
Proof.
  intros H. destruct (ready_cases w self H) as [s Hr].
  rewrite (generate_predictions_ready w self s ud Hr).
  destruct (fst (predict_expenses w self ud)); [|done].
  destruct (fst (predict_investment_potential w self ud)) as [i|]; [|done].
  destruct (fst (predict_insurance_need w self ud)); [|done].
  cbv zeta. intros [= <-].
  exists i. do 3 eexists. split; [reflexivity|]. rewrite !lookup_three.
  repeat (case_decide; try done).
Qed.

(** X18: on a profile with non-negative fields, the prediction set of a
    call that got past the guard and returned: the projected savings are
    non-negative and grow with the horizon; with a non-negative investment
    prediction so do the investment returns; the risk score is the same at
    the three horizons and lies in [0,10] when the risk probability lies
    in [0,1]. *)
Theorem projections_ordered (self : FinancialModels) (ud : UserData)
    (p : gmap string Horizon) :
  is_trained self = true \/ fst (train_models w self) = true ->
  fst (generate_predictions w self ud) = Some p ->
  nonneg ud ->
  (forall i, fst (predict_investment_potential w self ud) = Some i -> 0 <= i) ->
  0 <= fst (assess_risk w self ud) <= 1 ->
  exists h1 h3 h10,
    p !! "1_year" = Some h1
    /\ p !! "3_year" = Some h3
    /\ p !! "10_year" = Some h10
    /\ 0 <= savings_growth h1 <= savings_growth h3
    /\ savings_growth h3 <= savings_growth h10
    /\ 0 <= investment_returns h1 <= investment_returns h3
    /\ investment_returns h3 <= investment_returns h10
    /\ risk_score h1 = risk_score h3 /\ risk_score h3 = risk_score h10
    /\ 0 <= risk_score h1 <= 10.
Proof.
  intros H Hp Hnn Hi Hr.
  destruct (generate_predictions_records self ud p H Hp)
    as (i & h1 & h3 & h10 & Hinv & H1 & H3 & H10 & Hf).
  cbv zeta in Hf. specialize (Hi i Hinv).
  exists h1, h3, h10. repeat (split; [assumption|]).
  destruct Hf as (-> & -> & -> & -> & -> & -> & -> & -> & -> & _).
  pose proof (nonneg_get ud "savings_total" 0 Hnn ltac:(lra)).
  pose proof (nonneg_get ud "net_monthly_income" 0 Hnn ltac:(lra)).
  repeat split; lra.
Qed.

(** X19: in the prediction set of a call that got past the guard and
    returned, the 1-year and 3-year statuses are the same; the 10-year
    status is never "High Risk": where the short horizons say "High Risk"
    it says "Moderate", and where it says "Excellent" the short horizons
    say "Good". *)
Theorem horizon_statuses_related (self : FinancialModels) (ud : UserData)
    (p : gmap string Horizon) :
  is_trained self = true \/ fst (train_models w self) = true ->
  fst (generate_predictions w self ud) = Some p ->
  exists h1 h3 h10,
    p !! "1_year" = Some h1
    /\ p !! "3_year" = Some h3
    /\ p !! "10_year" = Some h10
    /\ health_status h3 = health_status h1
    /\ health_status h10 <> "High Risk"
    /\ (health_status h1 = "High Risk" -> health_status h10 = "Moderate")
    /\ (health_status h10 = "Excellent" -> health_status h1 = "Good").
Proof.
  intros H Hp.
  destruct (generate_predictions_records self ud p H Hp)
    as (i & h1 & h3 & h10 & _ & H1 & H3 & H10 & Hf).
  cbv zeta in Hf.
  destruct Hf as (_ & _ & _ & _ & _ & _ & _ & _ & _ & Hs1 & Hs3 & Hs10).
  exists h1, h3, h10. repeat (split; [assumption|]).
  rewrite Hs1, Hs10.
  generalize (fst (assess_risk w self ud)). intros risk.
  case_cmp; repeat split; intros; first [done | lra].
Qed.

End PredictionsMore.

Section PredictionWitnesses.
Import Models.

Lemma missing_dataset_behaviour_witness :
  read_csv no_dataset = None
  /\ generate_predictions no_dataset init spec_profile = (Some ∅, init).
Proof.
  assert (H : read_csv no_dataset = None) by reflexivity.
  split; [exact H|].
  exact (proj1 (proj2 (missing_dataset_behaviour no_dataset init spec_profile H))
               eq_refl).
Defined.

Lemma generate_predictions_idempotent_witness :
  ((is_trained init = true \/ fst (train_models (table_world calm_table) init) = true)
   /\ is_Some (fst (generate_predictions (table_world calm_table) init spec_profile))
   /\ generate_predictions (table_world calm_table)
        (snd (generate_predictions (table_world calm_table) init spec_profile))
        spec_profile
      = generate_predictions (table_world calm_table) init spec_profile)
  /\ ((is_trained init = true \/ fst (train_models (table_world narrow_table) init) = true)
      /\ fst (generate_predictions (table_world narrow_table) init spec_profile) = None
      /\ generate_predictions (table_world narrow_table)
           (snd (generate_predictions (table_world narrow_table) init spec_profile))
           spec_profile
         = generate_predictions (table_world narrow_table) init spec_profile).
Proof.
  assert (H : is_trained init = true
              \/ fst (train_models (table_world calm_table) init) = true)
    by (right; vm_compute; reflexivity).
  assert (H' : is_trained init = true
               \/ fst (train_models (table_world narrow_table) init) = true)
    by (right; vm_compute; reflexivity).
  split; (split; [assumption|]).
  - split; [vm_compute; by eexists|].
    exact (proj2 (generate_predictions_idempotent (table_world calm_table) init
                    spec_profile H)).
  - split; [vm_compute; reflexivity|].
    exact (proj2 (generate_predictions_idempotent (table_world narrow_table) init
                    spec_profile H')).
Defined.

Lemma projections_ordered_witness :
  (is_trained init = true \/ fst (train_models (table_world calm_table) init) = true)
  /\ is_Some (fst (generate_predictions (table_world calm_table) init spec_profile))
  /\ nonneg spec_profile
  /\ 0 <= fst (assess_risk (table_world calm_table) init spec_profile) <= 1
  /\ exists h1 h10,
       default ∅ (fst (generate_predictions (table_world calm_table) init spec_profile))
         !! "1_year" = Some h1
       /\ default ∅ (fst (generate_predictions (table_world calm_table) init spec_profile))
            !! "10_year" = Some h10
       /\ savings_growth h1 <= savings_growth h10
       /\ 0 <= risk_score h1 <= 10.
Proof.
  assert (H1 : is_trained init = true
               \/ fst (train_models (table_world calm_table) init) = true)
    by (right; vm_compute; reflexivity).
  assert (Hp : fst (generate_predictions (table_world calm_table) init spec_profile)
               = Some (default ∅ (fst (generate_predictions (table_world calm_table) init
                                         spec_profile))))
    by (vm_compute; reflexivity).
  assert (H2 : forall i,
             fst (predict_investment_potential (table_world calm_table) init spec_profile)
             = Some i -> 0 <= i)
    by (intros i Hi; vm_compute in Hi; injection Hi as <-; vm_compute; discriminate).
  assert (H3 : 0 <= fst (assess_risk (table_world calm_table) init spec_profile) <= 1)
    by (split; vm_compute; discriminate).
  split; [exact H1|]. split; [by rewrite Hp|]. split; [exact spec_profile_nonneg|].
  split; [exact H3|].
  destruct (projections_ordered (table_world calm_table) init spec_profile _
              H1 Hp spec_profile_nonneg H2 H3)
    as (h1 & h3 & h10 & L1 & _ & L10 & [_ S1] & S3 & _ & _ & _ & _ & Hr).
  exists h1, h10. repeat split; try assumption; try apply Hr.
  exact (Qle_trans _ _ _ S1 S3).
Defined.

Lemma horizon_statuses_related_witness :
  (is_trained init = true \/ fst (train_models (table_world calm_table) init) = true)
  /\ is_Some (fst (generate_predictions (table_world calm_table) init spec_profile))
  /\ exists h10,
       default ∅ (fst (generate_predictions (table_world calm_table) init spec_profile))
         !! "10_year" = Some h10
       /\ health_status h10 <> "High Risk".
Proof.
  assert (H1 : is_trained init = true
               \/ fst (train_models (table_world calm_table) init) = true)
    by (right; vm_compute; reflexivity).
  assert (Hp : fst (generate_predictions (table_world calm_table) init spec_profile)
               = Some (default ∅ (fst (generate_predictions (table_world calm_table) init
                                         spec_profile))))
    by (vm_compute; reflexivity).
  split; [exact H1|]. split; [by rewrite Hp|].
  destruct (horizon_statuses_related (table_world calm_table) init spec_profile _ H1 Hp)
    as (h1 & h3 & h10 & _ & _ & L10 & _ & Hn & _).
  exists h10. split; assumption.
Defined.

End PredictionWitnesses.

(** ** Feature preparation, continued *)

Section FeaturesMore.
Import Models.
Variable w : World.

Lemma is_empty_num (ud : UserData) (k : string) (d : Q) :
  is_empty ud = true -> get ud k d = d.
Proof.
  unfold is_empty, get. intros H. apply andb_prop in H as [H _].
  apply bool_decide_eq_true in H. by rewrite H, lookup_empty.
Qed.

Lemma prepare_user_features_empty (self : FinancialModels) (ud : UserData) :
  is_empty ud = true -> prepare_user_features self ud = None.
Proof. intros H. unfold prepare_user_features. by rewrite H. Qed.

(** X20: on the empty profile the four predictors answer with their
    neutral defaults whatever the models are, and a call that gets past
    the guard returns a prediction set with savings and investment returns
    of 0, a risk score of 5 and the status "Moderate" at the three
    horizons. *)
Theorem empty_profile_predictions (self : FinancialModels) (ud : UserData) :
  is_empty ud = true ->
  fst (predict_expenses w self ud) = Some 0
  /\ fst (predict_investment_potential w self ud) = Some 0
  /\ fst (assess_risk w self ud) = 0.5
  /\ fst (predict_insurance_need w self ud) = Some 0
  /\ (is_trained self = true \/ fst (train_models w self) = true ->
        exists p h1 h3 h10,
          fst (generate_predictions w self ud) = Some p
          /\ p !! "1_year" = Some h1
          /\ p !! "3_year" = Some h3
          /\ p !! "10_year" = Some h10
          /\ Forall (fun h => savings_growth h == 0 /\ investment_returns h == 0
                              /\ risk_score h == 5 /\ health_status h = "Moderate")
                    [h1; h3; h10]).
Proof.
  intros He.
  assert (Hdef : fst (predict_expenses w self ud) = Some 0
                 /\ fst (predict_investment_potential w self ud) = Some 0
                 /\ fst (assess_risk w self ud) = 0.5
                 /\ fst (predict_insurance_need w self ud) = Some 0).
  { unfold predict_expenses, predict_investment_potential, assess_risk,
      predict_insurance_need.
    by rewrite (prepare_user_features_empty _ ud He). }
  destruct Hdef as (H1 & H2 & H3 & H4). repeat (split; [assumption|]).
  intros H. destruct (ready_cases w self H) as [s Hr].
  pose proof (generate_predictions_ready w self s ud Hr) as Hp.
  rewrite H1, H2, H4 in Hp. cbv zeta in Hp.
  destruct (generate_predictions_records w self ud _ H Hp)
    as (i & h1 & h3 & h10 & Hi & L1 & L3 & L10 & Hf).
  rewrite H2 in Hi. injection Hi as <-.
  cbv zeta in Hf. rewrite H3, !(is_empty_num ud _ 0 He) in Hf.
  destruct Hf as (S1 & S3 & S10 & I1 & I3 & I10 & R1 & R3 & R10 & T1 & T3 & T10).
  eexists. exists h1, h3, h10. split; [exact Hp|]. repeat (split; [assumption|]).
  repeat constructor;
    rewrite ?S1, ?S3, ?S10, ?I1, ?I3, ?I10, ?R1, ?R3, ?R10, ?T3, ?T1, ?T10;
    reflexivity.
Qed.

Lemma encode_head (c0 : string) (rest : list string) :
  encode (c0 :: rest) c0 = Some 0.
Proof.
  unfold encode, le_transform. cbn. by rewrite decide_True.
Qed.

Lemma is_empty_set_cat (ud : UserData) (k v : string) :
  is_empty (set_cat k v ud) = false.
Proof.
  unfold is_empty, set_cat; cbn. apply andb_false_intro2.
  apply bool_decide_eq_false. apply insert_non_empty.
Qed.

(** X21: a category label the encoder has not seen is encoded like the
    first known class: for [income_type] and for [class], a non-empty
    profile with an unseen label gets the feature row of the same profile
    with the first class of the encoder in its place. *)
Theorem unseen_category_is_first_class (self : FinancialModels) (ud : UserData)
    (col dflt c0 : string) (rest : list string) :
  (col, dflt) ∈ [("income_type", "single_income"); ("class", "middle")] ->
  is_empty ud = false ->
  label_encoders self !! col = Some (c0 :: rest) ->
  get_cat ud col dflt ∉ c0 :: rest ->
  prepare_user_features self (set_cat col c0 ud) = prepare_user_features self ud.
Proof.
  intros Hcol He Henc Hunseen.
  unfold prepare_user_features. rewrite He, is_empty_set_cat.
  assert (Hget : forall key d, get (set_cat col c0 ud) key d = get ud key d) by done.
  rewrite !Hget.
  assert (Hcat : get_cat (set_cat col c0 ud) col dflt = c0).
  { unfold get_cat, set_cat; cbn. by rewrite lookup_insert_eq. }
  assert (Hother : forall key d, key <> col ->
            get_cat (set_cat col c0 ud) key d = get_cat ud key d).
  { intros key d Hne. unfold get_cat, set_cat; cbn. by rewrite lookup_insert_ne. }
  apply elem_of_cons in Hcol as [[= -> ->]|Hcol];
    [|apply list_elem_of_singleton in Hcol as [= -> ->]].
  - rewrite Henc, Hcat, (Hother "class") by done.
    rewrite (bool_decide_eq_true_2 (c0 ∈ c0 :: rest)) by apply list_elem_of_here.
    rewrite (bool_decide_eq_false_2 _ Hunseen), encode_head. reflexivity.
  - rewrite Henc, Hcat, (Hother "income_type") by done.
    rewrite (bool_decide_eq_true_2 (c0 ∈ c0 :: rest)) by apply list_elem_of_here.
    rewrite (bool_decide_eq_false_2 _ Hunseen), encode_head. reflexivity.
Qed.

(** X13: a category label the encoder knows is encoded by its position in
    the fitted classes: on a non-empty profile the feature row exists, its
    third entry is the first position at which [classes_] holds the
    [income_type] of the profile, and reading the classes at that position
    gives the label back. *)
Theorem known_category_code (self : FinancialModels) (ud : UserData)
    (classes : list string) :
  is_empty ud = false ->
  label_encoders self !! "income_type" = Some classes ->
  get_cat ud "income_type" "single_income" ∈ classes ->
  exists features (i : nat),
    prepare_user_features self ud = Some features
    /\ features !! 2%nat = Some (inject_Z (Z.of_nat i))
    /\ classes !! i = Some (get_cat ud "income_type" "single_income")
    /\ forall j, (j < i)%nat ->
         classes !! j <> Some (get_cat ud "income_type" "single_income").
Proof.
  intros He Henc Hin.
  destruct (le_transform_round_trip classes) as (Hk & Hpos & _).
  destruct (Hk _ Hin) as [i Hi]. destruct (Hpos _ _ Hi) as [Hc Hfirst].
  destruct (prepare_user_features_row self ud He) as (it & cl & Hrow).
  exists [ get ud "household_size" 1; get ud "number_of_kids" 0; it; cl;
           get ud "gross_monthly_income" 0; get ud "net_monthly_income" 0;
           get ud "assets_total" 0; get ud "investments_total" 0;
           get ud "savings_total" 0; get ud "debts_total" 0 ], i.
  split; [exact Hrow|]. split; [|split; assumption].
  unfold prepare_user_features in Hrow. rewrite He, Henc in Hrow.
  rewrite (bool_decide_eq_true_2 _ Hin) in Hrow. unfold encode in Hrow.
  rewrite Hi in Hrow. cbn in Hrow.
  destruct (match label_encoders self !! "class" with Some _ => _ | None => _ end);
    cbn in Hrow; [|discriminate].
  by injection Hrow as <- _.
Qed.

End FeaturesMore.

Section FeatureWitnesses.
Import Models.

Lemma known_category_code_witness :
  is_empty freelance_profile = false
  /\ exists features (i : nat),
       prepare_user_features trained_predictor
         (set_cat "income_type" "single_income" freelance_profile) = Some features
       /\ features !! 2%nat = Some (inject_Z (Z.of_nat i)).
Proof.
  assert (H : is_empty (set_cat "income_type" "single_income" freelance_profile) = false)
    by (vm_compute; reflexivity).
  split; [vm_compute; reflexivity|].
  destruct (known_category_code trained_predictor
              (set_cat "income_type" "single_income" freelance_profile)
              ["dual_income"; "single_income"] H)
    as (features & i & Hf & Hi & _).
  - vm_compute; reflexivity.
  - apply list_elem_of_further, list_elem_of_here.
  - exists features, i. split; assumption.
Defined.

Lemma empty_profile_predictions_witness :
  is_empty empty_profile = true
  /\ fst (assess_risk (table_world mixed_table) init empty_profile) = 0.5.
Proof.
  assert (H : is_empty empty_profile = true) by (vm_compute; reflexivity).
  split; [exact H|].
  exact (proj1 (proj2 (proj2
    (empty_profile_predictions (table_world mixed_table) init empty_profile H)))).
Defined.

Lemma unseen_category_is_first_class_witness :
  is_empty freelance_profile = false
  /\ (get_cat freelance_profile "income_type" "single_income"
        ∉ ["dual_income"; "single_income"])
  /\ prepare_user_features trained_predictor
       (set_cat "income_type" "dual_income" freelance_profile)
     = prepare_user_features trained_predictor freelance_profile.
Proof.
  assert (H1 : is_empty freelance_profile = false) by (vm_compute; reflexivity).
  assert (H2 : get_cat freelance_profile "income_type" "single_income"
               ∉ ["dual_income"; "single_income"]).
  { intros H. repeat (apply elem_of_cons in H as [H|H]; [discriminate H|]).
    by apply elem_of_nil in H. }
  split; [exact H1|]. split; [exact H2|].
  apply (unseen_category_is_first_class trained_predictor freelance_profile
           "income_type" "single_income" "dual_income" ["single_income"]).
  - apply list_elem_of_here.
  - exact H1.
  - vm_compute; reflexivity.
  - exact H2.
Defined.

End FeatureWitnesses.


(** ** The investment tab *)

Section Allocation.
Import Dashboard.

(** X24: the age-based allocation: equity and debt add up to 100, equity is
    at most 80 and debt at least 20; for an age up to 100 both lie in
    [0,100], above 100 the suggested equity is negative; the risk profile
    is "High" below the age of 40, "Conservative" from 60 on and
    "Moderate" in between. *)
Theorem suggested_allocation_bounds (ud : UserData) :
  let age := get ud "age" 30 in
  let '(equity, debt, profile) := suggested_allocation ud in
  equity + debt == 100
  /\ equity <= 80 /\ 20 <= debt
  /\ (age <= 100 -> 0 <= equity /\ debt <= 100)
  /\ (100 < age -> equity < 0 /\ 100 < debt)
  /\ (profile = "High" <-> age < 40)
  /\ (profile = "Moderate" <-> 40 <= age < 60)
  /\ (profile = "Conservative" <-> 60 <= age).
Proof.
  cbv zeta. unfold suggested_allocation.
  generalize (get ud "age" 30). intros age.
  unfold py_min. case_cmp; repeat split; intros; first [lra | done].
Qed.

End Allocation.

(** ** The local store *)

Section LocalStore.
Import Firebase.

Lemma collection_data_collection (db : Store) (name name' : string) :
  collection_data (collection db name) name' = collection_data db name'.
Proof.
  unfold collection_data, collection, Store in *.
  destruct (db !! name) eqn:E; [done|].
  destruct (decide (name = name')) as [<-|].
  - by rewrite lookup_insert_eq, E.
  - by rewrite lookup_insert_ne.
Qed.

Lemma collection_data_insert (db : Store) (name name' : string) (docs : gmap string Doc) :
  collection_data (<[name := docs]> db) name'
  = if decide (name = name') then docs else collection_data db name'.
Proof.
  unfold collection_data, Store in *.
  destruct (decide (name = name')) as [<-|].
  - by rewrite lookup_insert_eq.
  - by rewrite lookup_insert_ne.
Qed.

(** Reading a document after a [set]. *)
Lemma document_get_set (db : Store) (coll coll' id id' : string) (data : Doc)
    (merge : bool) :
  fst (document_get (document_set db coll id data merge) coll' id')
  = if decide (coll = coll' /\ id = id')
    then Some (match fst (document_get db coll id) with
               | Some old => if merge then data ∪ old else data
               | None => data
               end)
    else fst (document_get db coll' id').
Proof.
  unfold document_get, document_set; cbn [fst].
  rewrite !collection_data_collection, collection_data_insert,
    !collection_data_collection.
  destruct (decide (coll = coll')) as [<-|Hc].
  - destruct (decide (id = id')) as [<-|Hi].
    + rewrite decide_True by done.
      destruct (collection_data db coll !! id); [destruct merge|];
        by rewrite lookup_insert_eq.
    + rewrite decide_False by tauto.
      destruct (collection_data db coll !! id); [destruct merge|];
        by rewrite lookup_insert_ne.
  - by rewrite decide_False by tauto.
Qed.

(** X25: saving a profile and loading it back loses no field: the loaded
    document exists, carries the user id and the timestamp, holds every
    field of the saved data with its value, and keeps the fields of an
    earlier document that the saved data does not mention. *)
Theorem user_data_round_trip (now : Z) (db : Store) (user_id : string) (user_data : Doc) :
  let db' := snd (save_user_data now db user_id user_data) in
  let old := to_dict (fst (get_user_data db user_id)) in
  fst (save_user_data now db user_id user_data) = true
  /\ exists doc,
       fst (get_user_data db' user_id) = Some doc
       /\ doc !! "user_id" = Some (VStr user_id)
       /\ doc !! "timestamp" = Some (VTime now)
       /\ (forall k v, k <> "user_id" -> k <> "timestamp" ->
             user_data !! k = Some v -> doc !! k = Some v)
       /\ (forall k, k <> "user_id" -> k <> "timestamp" ->
             user_data !! k = None -> doc !! k = old !! k).
Proof.
  cbv zeta. split; [done|].
  unfold get_user_data, save_user_data. cbn [snd].
  pose proof (document_get_set db "users" "users" user_id user_id
                (<["user_id" := VStr user_id]> (<["timestamp" := VTime now]> user_data))
                true) as Hg.
  rewrite decide_True in Hg by done.
  destruct (document_get (document_set _ _ _ _ _) "users" user_id) as [doc' db'].
  cbn [fst] in Hg. subst doc'. cbn [snapshot_exists].
  destruct (document_get db "users" user_id) as [old db0]. cbn [fst].
  unfold Doc in *.
  destruct old as [old|]; cbn;
    eexists; (split; [reflexivity|]); repeat split; intros;
    rewrite ?lookup_union, ?lookup_empty;
    repeat first [rewrite lookup_insert_eq | rewrite lookup_insert_ne by done];
    try match goal with H : user_data !! _ = _ |- _ => rewrite H end;
    first [done | match goal with |- context [old !! ?k] => by destruct (old !! k) end].
Qed.

(** X27: the chat history that [save_chat_history] stores is not what
    [get_chat_history] reads: the first writes the collection [chats], the
    second reads the collection [chat_history], so a save never changes
    what is read, and on a store that only this service has written the
    history read is empty. *)
Theorem chat_history_not_read_back (now_iso : string) (db : Store) (user_id other : string)
    (chat_history : list (gmap string string)) :
  let db' := snd (save_chat_history now_iso db user_id chat_history) in
  fst (get_chat_history db' other) = fst (get_chat_history db other)
  /\ fst (get_chat_history
            (snd (save_chat_history now_iso ∅ user_id chat_history)) user_id)
     = VMessages []
  /\ exists doc, fst (document_get db' "chats" user_id) = Some doc
       /\ doc !! "chat_history" = Some (VMessages chat_history).
Proof.
  cbv zeta. split; [|split].
  - unfold get_chat_history, save_chat_history. cbn [snd].
    pose proof (document_get_set db "chats" "chat_history" user_id other
                  {[ "user_id" := VStr user_id;
                     "chat_history" := VMessages chat_history;
                     "timestamp" := VStr now_iso ]} true) as Hg.
    rewrite decide_False in Hg by (intros [? _]; discriminate).
    destruct (document_get (document_set _ _ _ _ _) "chat_history" other) as [doc' db'].
    destruct (document_get db "chat_history" other) as [doc db0].
    cbn [fst] in Hg. subst doc'. by destruct doc.
  - done.
  - unfold save_chat_history. cbn [snd]. rewrite document_get_set.
    rewrite decide_True by done. unfold Doc in *.
    eexists; split; [reflexivity|].
    destruct (document_get db "chats" user_id) as [[old|] db0]; cbn [fst];
      rewrite ?lookup_union, lookup_insert_ne, lookup_insert_eq by done; [|done].
    unfold Doc in *. by destruct (old !! "chat_history").
Qed.

End LocalStore.
